(** * imagekit.cachefiles.backends: the cache-backed file-state machine

    A shallow embedding of [imagekit/cachefiles/backends.py].  Python
    methods become functions in a state-and-exception monad over a [World]
    that holds the shared state cache, the file storage, the celery task
    queue and a trace of the calls made to the external collaborators. *)

From Stdlib Require Import ZArith String List Lia.
From stdpp Require Import base option gmap strings list.

Open Scope Z_scope.

(** ** Python values *)

(** The few Python values the module handles: cache states are [str],
    attribute dictionaries hold arbitrary objects.  An object carries the
    answer of its own truth test ([__nonzero__] / [__len__]). *)
Inductive PyVal :=
| PyNone
| PyBool (b : bool)
| PyInt (n : Z)
| PyStr (s : string)
| PyObj (addr : positive) (truth : bool).

#[global] Instance PyVal_eq_dec : EqDecision PyVal.
Proof. solve_decision. Defined.

(** Python's truth test, as used by [not x] and [x or y]. *)
Definition truthy (v : PyVal) : bool :=
  match v with
  | PyNone => false
  | PyBool b => b
  | PyInt n => negb (n =? 0)
  | PyStr s => negb (String.eqb s EmptyString)
  | PyObj _ t => t
  end.

(** ** class CacheFileState *)

Module CacheFileState.
Definition EXISTS : string := "exists".
Definition GENERATING : string := "generating".
Definition DOES_NOT_EXIST : string := "does_not_exist".
End CacheFileState.

(** ** Exceptions and outcomes *)

Inductive Exn :=
| ImproperlyConfigured (msg : string)
| NotImplementedError
| AttributeError (msg : string)
| RenderError (msg : string).

Inductive Outcome (A : Type) :=
| Return (a : A)
| Raise (e : Exn).
Arguments Return {A} a.
Arguments Raise {A} e.

(** ** Files, backends, tasks *)

(** The storage a file lives in, seen as the set of names it holds. *)
Abbreviation Storage := (gset string).

(** A cache file: its logical [name], the optional [_file] attribute ([None]
    here when the attribute is not set) and its own rendering routine
    [_generate], which works on the storage and may raise. *)
Record File := {
  name : string;
  _file : option PyVal;
  _generate : Storage -> Outcome unit * Storage;
}.

(** The classes of the module that carry the cached state machine. *)
Inductive BackendClass := CachedFileBackend | Simple | Async.

#[global] Instance BackendClass_eq_dec : EqDecision BackendClass.
Proof. solve_decision. Defined.

(** A backend instance: its class and the [existence_check_timeout]
    attribute it resolves to. *)
Record Backend := {
  cls : BackendClass;
  existence_check_timeout : Z;
}.

(** [existence_check_timeout = 5] in the class body. *)
Definition default_existence_check_timeout : Z := 5.

Definition new_backend (c : BackendClass) : Backend :=
  {| cls := c; existence_check_timeout := default_existence_check_timeout |}.

(** The arguments of one [_generate_file.delay(backend, file, force=force)]. *)
Record Task := {
  t_backend : Backend;
  t_file : File;
  t_force : bool;
}.

(** ** The world *)

(** What [cache.set(key, value[, timeout])] stored: the value and the
    timeout argument, [None] when the call passed none. *)
Record CacheEntry := {
  value : string;
  timeout : option Z;
}.

#[global] Instance CacheEntry_eq_dec : EqDecision CacheEntry.
Proof. solve_decision. Defined.

(** Calls made to the collaborators, in the order they happen. *)
Inductive Event :=
| EvCacheGet (key : string)
| EvCacheSet (key : string) (v : string) (t : option Z)
| EvProbe (file_name : string)
| EvStorageExists (file_name : string)
| EvGenerate (file_name : string).

#[global] Instance Event_eq_dec : EqDecision Event.
Proof. solve_decision. Defined.

Record World := {
  cache : gmap string CacheEntry;
  storage : Storage;
  queue : list Task;
  trace : list Event;
  celery : bool;
}.

Definition with_cache (c : gmap string CacheEntry) (w : World) : World :=
  {| cache := c; storage := storage w; queue := queue w;
     trace := trace w; celery := celery w |}.

Definition with_storage (s : Storage) (w : World) : World :=
  {| cache := cache w; storage := s; queue := queue w;
     trace := trace w; celery := celery w |}.

Definition with_queue (q : list Task) (w : World) : World :=
  {| cache := cache w; storage := storage w; queue := q;
     trace := trace w; celery := celery w |}.

Definition log (e : Event) (w : World) : World :=
  {| cache := cache w; storage := storage w; queue := queue w;
     trace := trace w ++ [e]; celery := celery w |}.

(** ** The monad *)

Definition M (A : Type) : Type := World -> Outcome A * World.

Definition ret {A} (a : A) : M A := fun w => (Return a, w).

Definition raise {A} (e : Exn) : M A := fun w => (Raise e, w).

Definition bind {A B} (m : M A) (k : A -> M B) : M B :=
  fun w =>
    match m w with
    | (Return a, w') => k a w'
    | (Raise e, w') => (Raise e, w')
    end.

Notation "'let!' x := m 'in' k" := (bind m (fun x => k))
  (at level 10, x name, m at level 200, k at level 200).
Notation "m ;; k" := (bind m (fun _ => k))
  (at level 100, k at level 200, right associativity).

(** Append one event to the trace. *)
Definition emit (e : Event) : M unit := fun w => (Return tt, log e w).

(** ** The external collaborators *)

(** [cache.get(key)]: the stored value, or [None]. *)
Definition cache_get (key : string) : M (option string) :=
  fun w => (Return (value <$> cache w !! key), log (EvCacheGet key) w).

(** [cache.set(key, value)] and [cache.set(key, value, timeout)]. *)
Definition cache_set (key v : string) (t : option Z) : M unit :=
  fun w =>
    (Return tt,
     log (EvCacheSet key v t)
         (with_cache (<[key := {| value := v; timeout := t |}]> (cache w)) w)).

(** [file.storage.exists(file.name)]. *)
Definition storage_exists (n : string) : M bool :=
  fun w => (Return (bool_decide (n ∈ storage w)), log (EvStorageExists n) w).

(** [file._generate()]. *)
Definition call_generate (f : File) : M unit :=
  fun w =>
    let w1 := log (EvGenerate (name f)) w in
    let '(r, s) := _generate f (storage w1) in
    (r, with_storage s w1).

(** [_generate_file.delay(...)]: [_generate_file] is a celery task only when
    [import celery] succeeded; a plain function has no [delay]. *)
Definition delay (t : Task) : M unit :=
  fun w =>
    if celery w then (Return tt, with_queue (queue w ++ [t]) w)
    else (Raise (AttributeError "delay"), w).

(** [x in (a, b, ...)] for a value read from the cache. *)
Definition py_in (state : option string) (l : list string) : bool :=
  match state with
  | None => false
  | Some s => existsb (String.eqb s) l
  end.

(** ** Instance dictionaries *)

(** Dictionaries are mutable objects: a heap maps the address of each to its
    contents, so that a copy and its original are told apart. *)
Abbreviation Dict := (gmap string PyVal).
Abbreviation Heap := (gmap positive Dict).

(** [copy(d)] of a dictionary: a new dictionary with the same items. *)
Definition copy (d : positive) (h : Heap) : option (positive * Heap) :=
  match h !! d with
  | Some attrs => let d' := fresh (dom h) in Some (d', <[d' := attrs]> h)
  | None => None
  end.

(** [d.pop(k, dflt)]. *)
Definition dict_pop (d : positive) (k : string) (dflt : PyVal) (h : Heap)
  : option (PyVal * Heap) :=
  match h !! d with
  | Some attrs => Some (default dflt (attrs !! k), <[d := delete k attrs]> h)
  | None => None
  end.

(** [CachedFileBackend.__getstate__], on the address of [self.__dict__]. *)
Definition __getstate__ (self_dict : positive) (h : Heap)
  : option (positive * Heap) :=
  match copy self_dict h with
  | Some (state, h1) =>
      match dict_pop state "_cache" PyNone h1 with
      | Some (_, h2) => Some (state, h2)
      | None => None
      end
  | None => None
  end.

Section Backends.

(** [settings.IMAGEKIT_CACHE_PREFIX], [settings.IMAGEKIT_CACHE_BACKEND],
    [utils.sanitize_cache_key] and [django.core.cache.get_cache]. *)
Variable IMAGEKIT_CACHE_PREFIX : string.
Variable IMAGEKIT_CACHE_BACKEND : string.
Variable sanitize_cache_key : string -> string.
Variable get_cache : string -> PyVal.

(** ** class CachedFileBackend *)

(** The [cache] property, on the address of [self.__dict__]: the handle is
    made on first use and kept in [_cache]. *)
Definition cache_property (self_dict : positive) (h : Heap)
  : option (PyVal * Heap) :=
  match h !! self_dict with
  | Some attrs =>
      if negb (truthy (default PyNone (attrs !! "_cache"))) then
        let c := get_cache IMAGEKIT_CACHE_BACKEND in
        Some (c, <[self_dict := <["_cache" := c]> attrs]> h)
      else Some (default PyNone (attrs !! "_cache"), h)
  | None => None
  end.

Definition get_key (f : File) : string :=
  sanitize_cache_key (IMAGEKIT_CACHE_PREFIX +:+ name f +:+ "-state").

Definition set_state (self : Backend) (f : File) (state : string) : M unit :=
  let key := get_key f in
  if String.eqb state CacheFileState.DOES_NOT_EXIST
  then cache_set key state (Some (existence_check_timeout self))
  else cache_set key state None.

(** [Simple._exists]. *)
Definition Simple_exists (f : File) : M bool :=
  emit (EvProbe (name f)) ;;
  let staged := default PyNone (_file f) in
  if truthy staged then ret true
  else storage_exists (name f).

(** [self._exists(file)], resolved on the class of [self]:
    [CachedFileBackend] itself defines none. *)
Definition _exists (self : Backend) (f : File) : M bool :=
  match cls self with
  | CachedFileBackend => raise (AttributeError "_exists")
  | Simple | Async => Simple_exists f
  end.

Definition get_state (self : Backend) (f : File) (check_if_unknown : bool)
  : M (option string) :=
  let key := get_key f in
  let! state := cache_get key in
  if bool_decide (state = None) && check_if_unknown then
    let! exists_ := _exists self f in
    let state := if exists_ : bool then CacheFileState.EXISTS
                 else CacheFileState.DOES_NOT_EXIST in
    set_state self f state ;;
    ret (Some state)
  else ret state.

(** [CachedFileBackend.exists]. *)
Definition exists_ (self : Backend) (f : File) : M bool :=
  let! state := get_state self f true in
  ret (bool_decide (state = Some CacheFileState.EXISTS)).

Definition generate_now (self : Backend) (f : File) (force : bool) : M unit :=
  let! needed :=
    (if force then ret true
     else let! state := get_state self f true in
          ret (negb (py_in state [CacheFileState.GENERATING;
                                  CacheFileState.EXISTS]))) in
  if needed : bool then
    set_state self f CacheFileState.GENERATING ;;
    call_generate f ;;
    set_state self f CacheFileState.EXISTS
  else ret tt.

(** ** class Simple *)

Definition Simple_generate (self : Backend) (f : File) (force : bool) : M unit :=
  generate_now self f force.

(** ** _generate_file and class Async *)

Definition _generate_file (backend : Backend) (f : File) (force : bool) : M unit :=
  generate_now backend f force.

(** [Async.__init__]: [import celery] succeeds or the constructor raises;
    the arguments go on to the parent initialiser, which keeps no state. *)
Definition Async_init (self : Backend) : M unit :=
  fun w =>
    if celery w then (Return tt, w)
    else (Raise (ImproperlyConfigured
                   ("You must install celery to use"
                    +:+ " imagekit.cachefiles.backend.Async.")), w).

(** [Async()]: a new instance, initialised. *)
Definition Async_new : M Backend :=
  let self := new_backend Async in
  Async_init self ;;
  ret self.

Definition Async_generate (self : Backend) (f : File) (force : bool) : M unit :=
  let! state := get_state self f false in
  if negb (py_in state [CacheFileState.GENERATING; CacheFileState.EXISTS])
  then delay {| t_backend := self; t_file := f; t_force := force |}
  else ret tt.

(** [backend.generate(file, force)], resolved on the class of [backend]. *)
Definition generate (self : Backend) (f : File) (force : bool) : M unit :=
  match cls self with
  | CachedFileBackend => raise NotImplementedError
  | Simple => Simple_generate self f force
  | Async => Async_generate self f force
  end.

(** A worker running a queued task. *)
Definition run_task (t : Task) : M unit :=
  _generate_file (t_backend t) (t_file t) (t_force t).

(** ** Vocabulary of the statements *)

(** The three defined states. *)
Definition is_state (s : string) : bool :=
  bool_decide (s ∈ [CacheFileState.EXISTS; CacheFileState.GENERATING;
                    CacheFileState.DOES_NOT_EXIST]).

(** Every record of the cache holds one of the three states. *)
Definition cache_wf (c : gmap string CacheEntry) : Prop :=
  map_Forall (fun _ e => is_state (value e) = true) c.

(** A state that makes generation a no-op. *)
Definition blocks (state : option string) : bool :=
  bool_decide (state = Some CacheFileState.GENERATING
               ∨ state = Some CacheFileState.EXISTS).

(** How often [file._generate()] ran for the given name. *)
Definition renders (n : string) (t : list Event) : nat :=
  length (filter (fun e => e = EvGenerate n) t).

(** The default probe's answer: a staged [_file], or the name in storage. *)
Definition staged (f : File) : Prop :=
  exists v, _file f = Some v /\ truthy v = true.

(** The timeout argument [set_state] passes for a state. *)
Definition state_timeout (self : Backend) (state : string) : option Z :=
  if String.eqb state CacheFileState.DOES_NOT_EXIST
  then Some (existence_check_timeout self) else None.

(** The world one [set_state] leaves. *)
Definition stored (self : Backend) (f : File) (state : string) (w : World)
  : World :=
  log (EvCacheSet (get_key f) state (state_timeout self state))
      (with_cache (<[get_key f := {| value := state;
                                     timeout := state_timeout self state |}]>
                     (cache w)) w).

(** The answer of the default probe on a storage. *)
Definition probe_answer (f : File) (s : Storage) : bool :=
  truthy (default PyNone (_file f)) || bool_decide (name f ∈ s).

(** The world the default probe leaves: the storage is asked only when no
    truthy [_file] is attached. *)
Definition probed (f : File) (w : World) : World :=
  if truthy (default PyNone (_file f)) then log (EvProbe (name f)) w
  else log (EvStorageExists (name f)) (log (EvProbe (name f)) w).

(** The state a probe answer is mapped to. *)
Definition state_of_probe (b : bool) : string :=
  if b then CacheFileState.EXISTS else CacheFileState.DOES_NOT_EXIST.

(** The events of one run of the rendering steps, given how the render
    ended. *)
Definition render_events (self : Backend) (f : File) (r : Outcome unit)
  : list Event :=
  [EvCacheSet (get_key f) CacheFileState.GENERATING None;
   EvGenerate (name f)]
  ++ match r with
     | Return _ => [EvCacheSet (get_key f) CacheFileState.EXISTS None]
     | Raise _ => []
     end.

(** The three rendering steps of the specification's algorithm, written
    with the world passed by hand. *)
Definition render_steps (self : Backend) (f : File) : M unit :=
  fun w =>
    let w1 := snd (set_state self f CacheFileState.GENERATING w) in
    match call_generate f w1 with
    | (Return _, w2) => set_state self f CacheFileState.EXISTS w2
    | (Raise e, w2) => (Raise e, w2)
    end.

(** The two-step algorithm of the specification for [generate_now]. *)
Definition generate_now_spec (self : Backend) (f : File) (force : bool)
  : M unit :=
  fun w =>
    if force then render_steps self f w
    else
      match get_state self f true w with
      | (Return state, w1) =>
          if blocks state then (Return tt, w1) else render_steps self f w1
      | (Raise e, w1) => (Raise e, w1)
      end.

(** ** Concrete files and worlds *)

(** A file whose render writes it to the storage. *)
Definition thumb : File :=
  {| name := "thumb/1.jpg";
     _file := None;
     _generate := fun s => (Return tt, {[ "thumb/1.jpg" ]} ∪ s) |}.

(** A file whose render fails. *)
Definition broken : File :=
  {| name := "thumb/2.jpg";
     _file := None;
     _generate :=
       fun s => (Raise (RenderError "cannot identify image file"), s) |}.

(** Nothing cached, nothing stored. *)
Definition fresh_world (with_celery : bool) : World :=
  {| cache := ∅; storage := ∅; queue := []; trace := [];
     celery := with_celery |}.

(** [thumb] already rendered and recorded as [EXISTS] under the key the
    prefix [ik:] gives it. *)
Definition rendered_world : World :=
  {| cache := {[ "ik:thumb/1.jpg-state" :=
                   {| value := CacheFileState.EXISTS; timeout := None |} ]};
     storage := {[ "thumb/1.jpg" ]};
     queue := []; trace := []; celery := true |}.

Definition simple : Backend := new_backend Simple.
Definition async : Backend := new_backend Async.

(** An instance dictionary holding a cache handle and one more attribute. *)
Definition instance_heap : Heap :=
  {[ 1%positive := {[ "_cache" := PyObj 7 true; "label" := PyStr "thumbs" ]} ]}.

(** A file with a staged [_file], in no storage. *)
Definition staged_thumb : File :=
  {| name := "thumb/3.jpg";
     _file := Some (PyObj 9 true);
     _generate := fun s => (Return tt, {[ "thumb/3.jpg" ]} ∪ s) |}.

(** [thumb] under another backend's eyes: the same name, a render of its
    own. *)
Definition thumb_again : File :=
  {| name := "thumb/1.jpg";
     _file := None;
     _generate := fun s => (Raise (RenderError "unused"), s) |}.

(** The one cache backend of the concrete runs. *)
Definition the_cache (backend : string) : PyVal := PyObj 7 true.

(** An instance dictionary that has no handle yet. *)
Definition plain_heap : Heap :=
  {[ 1%positive := {[ "label" := PyStr "thumbs" ]} ]}.

(** * Properties *)

(** ** Running the collaborators and the monad *)

Lemma bind_run {A B} (m : M A) (k : A -> M B) (w : World) :
  bind m k w =
  match m w with
  | (Return a, w') => k a w'
  | (Raise e, w') => (Raise e, w')
  end.
Proof. reflexivity. Qed.

Lemma bind_ret_l {A B} (a : A) (k : A -> M B) (w : World) :
  bind (ret a) k w = k a w.
Proof. reflexivity. Qed.

Lemma bind_assoc {A B C} (m : M A) (k : A -> M B) (k' : B -> M C) (w : World) :
  bind (bind m k) k' w = bind m (fun a => bind (k a) k') w.
Proof.
  unfold bind. destruct (m w) as [[a | e] w1]; [ | reflexivity ].
  destruct (k a w1) as [[b | e] w2]; reflexivity.
Qed.

Lemma set_state_run self f state w :
  set_state self f state w = (Return tt, stored self f state w).
Proof.
  unfold set_state, stored, state_timeout.
  destruct (String.eqb state CacheFileState.DOES_NOT_EXIST); reflexivity.
Qed.

Lemma stored_lookup self f state w :
  cache (stored self f state w) !! get_key f =
  Some {| value := state; timeout := state_timeout self state |}.
Proof. unfold stored. simpl. apply lookup_insert_eq. Qed.

Lemma stored_storage self f state w :
  storage (stored self f state w) = storage w.
Proof. reflexivity. Qed.

Lemma stored_queue self f state w : queue (stored self f state w) = queue w.
Proof. reflexivity. Qed.

Lemma stored_celery self f state w : celery (stored self f state w) = celery w.
Proof. reflexivity. Qed.

Lemma stored_trace self f state w :
  trace (stored self f state w) =
  trace w ++ [EvCacheSet (get_key f) state (state_timeout self state)].
Proof. reflexivity. Qed.

(** C4: [set_state] stores [DOES_NOT_EXIST] with the timeout
    [existence_check_timeout] (5 unless overridden) and stores [EXISTS] and
    [GENERATING] with no timeout argument, that is with the cache's default;
    each is one [cache.set] call on the file's key. *)
Theorem set_state_ttl_policy (self : Backend) (f : File) (w : World) :
  let after state := snd (set_state self f state w) in
  let call state t := trace w ++ [EvCacheSet (get_key f) state t] in
  (cache (after CacheFileState.DOES_NOT_EXIST) !! get_key f =
     Some {| value := CacheFileState.DOES_NOT_EXIST;
             timeout := Some (existence_check_timeout self) |}
   /\ trace (after CacheFileState.DOES_NOT_EXIST) =
        call CacheFileState.DOES_NOT_EXIST (Some (existence_check_timeout self)))
  /\ (cache (after CacheFileState.EXISTS) !! get_key f =
        Some {| value := CacheFileState.EXISTS; timeout := None |}
      /\ trace (after CacheFileState.EXISTS) = call CacheFileState.EXISTS None)
  /\ (cache (after CacheFileState.GENERATING) !! get_key f =
        Some {| value := CacheFileState.GENERATING; timeout := None |}
      /\ trace (after CacheFileState.GENERATING) =
           call CacheFileState.GENERATING None)
  /\ (forall c, existence_check_timeout (new_backend c) = 5)
  /\ (forall state, fst (set_state self f state w) = Return tt).
Proof.
  cbv zeta. repeat split; intros;
    rewrite ?set_state_run; simpl; rewrite ?lookup_insert_eq; reflexivity.
Qed.

(** ** The default probe *)

Lemma Simple_exists_run f w :
  Simple_exists f w = (Return (probe_answer f (storage w)), probed f w).
Proof.
  unfold Simple_exists, probe_answer, probed, bind, emit, storage_exists, ret.
  destruct (truthy (default PyNone (_file f))); reflexivity.
Qed.

Lemma probed_cache f w : cache (probed f w) = cache w.
Proof. unfold probed. destruct (truthy _); reflexivity. Qed.

Lemma probed_storage f w : storage (probed f w) = storage w.
Proof. unfold probed. destruct (truthy _); reflexivity. Qed.

Lemma probed_queue f w : queue (probed f w) = queue w.
Proof. unfold probed. destruct (truthy _); reflexivity. Qed.

Lemma probed_celery f w : celery (probed f w) = celery w.
Proof. unfold probed. destruct (truthy _); reflexivity. Qed.

Lemma probe_answer_true f s :
  probe_answer f s = true <-> staged f \/ name f ∈ s.
Proof.
  unfold probe_answer, staged. rewrite orb_true_iff, bool_decide_eq_true.
  split; (intros [H | H]; [ left | right; exact H ]).
  - destruct (_file f) as [v | ]; [ exists v; split; [ reflexivity | exact H ] | ].
    simpl in H. discriminate H.
  - destruct H as [v [Hv Ht]]. rewrite Hv. exact Ht.
Qed.

Lemma _exists_concrete self f w :
  cls self <> CachedFileBackend -> _exists self f w = Simple_exists f w.
Proof. unfold _exists. destruct (cls self); [ congruence | reflexivity .. ]. Qed.

(** ** get_state *)

Lemma get_state_hit self f check w e :
  cache w !! get_key f = Some e ->
  get_state self f check w =
  (Return (Some (value e)), log (EvCacheGet (get_key f)) w).
Proof.
  intros H. unfold get_state, bind, cache_get. rewrite H. reflexivity.
Qed.

Lemma get_state_unchecked self f w :
  cache w !! get_key f = None ->
  get_state self f false w = (Return None, log (EvCacheGet (get_key f)) w).
Proof.
  intros H. unfold get_state, bind, cache_get. rewrite H. reflexivity.
Qed.

Lemma get_state_miss self f w :
  cache w !! get_key f = None ->
  get_state self f true w =
  match _exists self f (log (EvCacheGet (get_key f)) w) with
  | (Return b, w1) =>
      (Return (Some (state_of_probe b)), stored self f (state_of_probe b) w1)
  | (Raise e, w1) => (Raise e, w1)
  end.
Proof.
  intros H. unfold get_state, bind, cache_get. rewrite H. simpl.
  destruct (_exists self f _) as [[b | e] w1]; [ | reflexivity ].
  fold (state_of_probe b). rewrite set_state_run. reflexivity.
Qed.

Lemma get_state_probe self f w :
  cls self <> CachedFileBackend ->
  cache w !! get_key f = None ->
  get_state self f true w =
  (Return (Some (state_of_probe (probe_answer f (storage w)))),
   stored self f (state_of_probe (probe_answer f (storage w)))
          (probed f (log (EvCacheGet (get_key f)) w))).
Proof.
  intros Hc H. rewrite get_state_miss by exact H.
  rewrite _exists_concrete by exact Hc. rewrite Simple_exists_run. reflexivity.
Qed.

(** C5: [get_state] returns the cached state when the cache holds one; on a
    miss with [check_if_unknown] it runs the probe, maps its answer to
    [EXISTS] or [DOES_NOT_EXIST], stores that through [set_state] and returns
    it; on a miss without [check_if_unknown] it returns [None], the unknown
    value, after the one cache read: no probe, no write. *)
Theorem get_state_cases (self : Backend) (f : File) (check : bool) (w : World) :
  let read := log (EvCacheGet (get_key f)) w in
  (forall e, cache w !! get_key f = Some e ->
     get_state self f check w = (Return (Some (value e)), read))
  /\ (cache w !! get_key f = None ->
      get_state self f true w =
        match _exists self f read with
        | (Return b, w1) =>
            (Return (Some (state_of_probe b)),
             snd (set_state self f (state_of_probe b) w1))
        | (Raise e, w1) => (Raise e, w1)
        end
      /\ (cls self <> CachedFileBackend ->
          let b := probe_answer f (storage w) in
          fst (get_state self f true w) = Return (Some (state_of_probe b))
          /\ (b = true <-> staged f \/ name f ∈ storage w)
          /\ cache (snd (get_state self f true w)) !! get_key f =
               Some {| value := state_of_probe b;
                       timeout := state_timeout self (state_of_probe b) |})
      /\ get_state self f false w = (Return None, read))
  /\ (forall s, is_state s = true -> Some s <> (None : option string)).
Proof.
  cbv zeta. split; [ | split ].
  - intros e H. apply get_state_hit. exact H.
  - intros H. split; [ | split ].
    + rewrite get_state_miss by exact H.
      destruct (_exists self f _) as [[b | e] w1]; [ | reflexivity ].
      rewrite set_state_run. reflexivity.
    + intros Hc. rewrite get_state_probe by assumption. simpl.
      split; [ reflexivity | ]. split; [ apply probe_answer_true | ].
      apply lookup_insert_eq.
    + apply get_state_unchecked. exact H.
  - intros s _. discriminate.
Qed.

(** ** generate_now *)

Lemma py_in_blocks state :
  py_in state [CacheFileState.GENERATING; CacheFileState.EXISTS] = blocks state.
Proof.
  destruct state as [s | ]; [ | reflexivity ]. simpl.
  destruct (String.eqb_spec s CacheFileState.GENERATING) as [-> | Hg];
    [ reflexivity | ].
  destruct (String.eqb_spec s CacheFileState.EXISTS) as [-> | He];
    [ reflexivity | ].
  symmetry. apply bool_decide_eq_false. intros [H | H]; congruence.
Qed.

Lemma render_steps_run self f w :
  (set_state self f CacheFileState.GENERATING ;;
   call_generate f ;;
   set_state self f CacheFileState.EXISTS) w = render_steps self f w.
Proof.
  unfold render_steps, bind. rewrite set_state_run. simpl snd.
  destruct (call_generate f _) as [[[] | e] w2]; reflexivity.
Qed.

Lemma generate_now_forced self f w :
  generate_now self f true w = render_steps self f w.
Proof. unfold generate_now. rewrite bind_ret_l. apply render_steps_run. Qed.

Lemma generate_now_unforced self f w :
  generate_now self f false w =
  match get_state self f true w with
  | (Return state, w1) =>
      if blocks state then (Return tt, w1) else render_steps self f w1
  | (Raise e, w1) => (Raise e, w1)
  end.
Proof.
  unfold generate_now. rewrite bind_assoc, bind_run.
  destruct (get_state self f true w) as [[state | e] w1]; [ | reflexivity ].
  rewrite bind_ret_l, py_in_blocks.
  destruct (blocks state); simpl; [ reflexivity | apply render_steps_run ].
Qed.

Lemma renders_app n (t1 t2 : list Event) :
  renders n (t1 ++ t2) = (renders n t1 + renders n t2)%nat.
Proof. unfold renders. rewrite filter_app, length_app. reflexivity. Qed.

Lemma renders_generate n : renders n [EvGenerate n] = 1%nat.
Proof.
  unfold renders. rewrite filter_cons_True by reflexivity. reflexivity.
Qed.

Lemma renders_cache_set n k v t : renders n [EvCacheSet k v t] = 0%nat.
Proof.
  unfold renders. rewrite filter_cons_False by discriminate. reflexivity.
Qed.

Lemma renders_cache_get n k : renders n [EvCacheGet k] = 0%nat.
Proof.
  unfold renders. rewrite filter_cons_False by discriminate. reflexivity.
Qed.

Lemma renders_probe n m : renders n [EvProbe m] = 0%nat.
Proof.
  unfold renders. rewrite filter_cons_False by discriminate. reflexivity.
Qed.

Lemma renders_storage_exists n m : renders n [EvStorageExists m] = 0%nat.
Proof.
  unfold renders. rewrite filter_cons_False by discriminate. reflexivity.
Qed.

Lemma render_steps_outcome self f w :
  fst (render_steps self f w) = fst (_generate f (storage w)).
Proof.
  unfold render_steps. rewrite set_state_run. unfold call_generate. simpl.
  destruct (_generate f (storage w)) as [[[] | e] s]; reflexivity.
Qed.

Lemma render_steps_trace self f w :
  trace (snd (render_steps self f w)) =
  trace w ++ render_events self f (fst (_generate f (storage w))).
Proof.
  unfold render_steps, render_events. rewrite set_state_run.
  unfold call_generate. simpl.
  destruct (_generate f (storage w)) as [[[] | e] s]; simpl;
    rewrite <- ?app_assoc; reflexivity.
Qed.

Lemma render_steps_cache self f w :
  cache (snd (render_steps self f w)) !! get_key f =
  Some {| value := match fst (_generate f (storage w)) with
                   | Return _ => CacheFileState.EXISTS
                   | Raise _ => CacheFileState.GENERATING
                   end;
          timeout := None |}.
Proof.
  unfold render_steps. rewrite set_state_run. unfold call_generate. simpl.
  destruct (_generate f (storage w)) as [[[] | e] s]; simpl;
    apply lookup_insert_eq.
Qed.

Lemma renders_render_events self f r :
  renders (name f) (render_events self f r) = 1%nat.
Proof.
  unfold render_events. destruct r; reflexivity || (unfold renders; simpl).
  all: rewrite filter_cons_False by discriminate.
  all: rewrite filter_cons_True by reflexivity.
  all: rewrite ?filter_cons_False by discriminate; reflexivity.
Qed.

(** C1: [generate_now] is the two-step algorithm: unforced, it reads the
    state with probing allowed and returns at once, in the world that read
    left, when the state is [GENERATING] or [EXISTS]; otherwise, or when
    forced, it sets [GENERATING], calls [file._generate()] and then sets
    [EXISTS].  Forced, it runs the render exactly once whatever the world. *)
Theorem generate_now_two_step (self : Backend) (f : File) (force : bool)
  (w : World) :
  generate_now self f force w = generate_now_spec self f force w
  /\ generate_now self f true w = render_steps self f w
  /\ trace (snd (generate_now self f true w)) =
       trace w ++ render_events self f (fst (generate_now self f true w))
  /\ renders (name f) (trace (snd (generate_now self f true w))) =
       S (renders (name f) (trace w)).
Proof.
  split; [ | split; [ | split ] ].
  - unfold generate_now_spec. destruct force.
    + apply generate_now_forced.
    + apply generate_now_unforced.
  - apply generate_now_forced.
  - rewrite generate_now_forced, render_steps_trace, render_steps_outcome.
    reflexivity.
  - rewrite generate_now_forced, render_steps_trace, renders_app,
      renders_render_events. lia.
Qed.

(** ** What get_state leaves behind *)

Lemma _exists_frame self f w :
  cache (snd (_exists self f w)) = cache w
  /\ storage (snd (_exists self f w)) = storage w
  /\ forall n, renders n (trace (snd (_exists self f w))) = renders n (trace w).
Proof.
  unfold _exists. destruct (cls self); simpl; [ auto | | ];
    rewrite Simple_exists_run; simpl;
    rewrite probed_cache, probed_storage; (split; [ | split ]; try reflexivity);
    intros n; unfold probed; destruct (truthy _); simpl;
    rewrite !renders_app, ?renders_probe, ?renders_storage_exists; lia.
Qed.

Lemma get_state_storage self f check w :
  storage (snd (get_state self f check w)) = storage w.
Proof.
  destruct (cache w !! get_key f) as [e | ] eqn:H.
  - rewrite (get_state_hit _ _ _ _ _ H). reflexivity.
  - destruct check.
    + rewrite get_state_miss by exact H.
      pose proof (_exists_frame self f (log (EvCacheGet (get_key f)) w))
        as (_ & Hs & _).
      destruct (_exists self f _) as [[b | e] w1]; simpl in *; exact Hs.
    + rewrite get_state_unchecked by exact H. reflexivity.
Qed.

Lemma get_state_renders self f check w n :
  renders n (trace (snd (get_state self f check w))) = renders n (trace w).
Proof.
  destruct (cache w !! get_key f) as [e | ] eqn:H.
  - rewrite (get_state_hit _ _ _ _ _ H). simpl.
    rewrite renders_app, renders_cache_get. lia.
  - destruct check.
    + rewrite get_state_miss by exact H.
      pose proof (_exists_frame self f (log (EvCacheGet (get_key f)) w))
        as (_ & _ & Hr).
      specialize (Hr n). simpl in Hr.
      rewrite renders_app, renders_cache_get in Hr.
      destruct (_exists self f _) as [[b | e] w1]; simpl in *;
        rewrite ?renders_app, ?renders_cache_set; lia.
    + rewrite get_state_unchecked by exact H. simpl.
      rewrite renders_app, renders_cache_get. lia.
Qed.

(** A checked read that returns leaves its answer in the cache. *)
Lemma get_state_caches self f w state w1 :
  get_state self f true w = (Return state, w1) ->
  exists e, cache w1 !! get_key f = Some e /\ state = Some (value e).
Proof.
  destruct (cache w !! get_key f) as [e | ] eqn:H.
  - rewrite (get_state_hit _ _ _ _ _ H). intros [= <- <-].
    exists e. split; [ exact H | reflexivity ].
  - rewrite get_state_miss by exact H.
    destruct (_exists self f _) as [[b | e] w0]; [ | discriminate ].
    intros [= <- <-]. eexists. split; [ apply stored_lookup | reflexivity ].
Qed.

(** A second unforced call after one that returned only reads the cache. *)
Lemma generate_now_again self f w w1 :
  generate_now self f false w = (Return tt, w1) ->
  generate_now self f false w1 = (Return tt, log (EvCacheGet (get_key f)) w1).
Proof.
  rewrite generate_now_unforced.
  destruct (get_state self f true w) as [[state | e] wa] eqn:Hg;
    [ | discriminate ].
  destruct (get_state_caches _ _ _ _ _ Hg) as (e & He & ->).
  destruct (blocks (Some (value e))) eqn:Hb.
  - intros [= <-]. rewrite generate_now_unforced.
    rewrite (get_state_hit _ _ _ _ _ He), Hb. reflexivity.
  - intros Hr. pose proof (render_steps_cache self f wa) as Hc.
    pose proof (render_steps_outcome self f wa) as Ho.
    rewrite Hr in Hc, Ho. simpl in Hc, Ho. rewrite <- Ho in Hc.
    rewrite generate_now_unforced. rewrite (get_state_hit _ _ _ _ _ Hc).
    reflexivity.
Qed.

(** C2, as the code has it: when a first unforced [generate_now] returns,
    a second one only reads the cache and renders nothing; together the two
    calls run [file._generate()] exactly once when the state the first call
    read was neither [GENERATING] nor [EXISTS], the state then being
    [EXISTS] after the first call, and not at all when it was one of them. *)
Theorem generate_now_twice (self : Backend) (f : File) (w w1 : World) :
  generate_now self f false w = (Return tt, w1) ->
  let w2 := snd (generate_now self f false w1) in
  generate_now self f false w1 = (Return tt, log (EvCacheGet (get_key f)) w1)
  /\ renders (name f) (trace w2) = renders (name f) (trace w1)
  /\ exists state,
       fst (get_state self f true w) = Return state
       /\ (blocks state = false ->
           renders (name f) (trace w2) = S (renders (name f) (trace w))
           /\ cache w1 !! get_key f =
                Some {| value := CacheFileState.EXISTS; timeout := None |})
       /\ (blocks state = true ->
           renders (name f) (trace w2) = renders (name f) (trace w)).
Proof.
  intros H1. cbv zeta. pose proof (generate_now_again _ _ _ _ H1) as H2.
  rewrite H2. simpl snd. split; [ reflexivity | ].
  split; [ simpl; rewrite renders_app, renders_cache_get; lia | ].
  rewrite generate_now_unforced in H1.
  pose proof (get_state_renders self f true w (name f)) as Hr.
  destruct (get_state self f true w) as [[state | e] wa]; [ | discriminate ].
  exists state. split; [ reflexivity | ]. simpl in Hr.
  split; intros Hb; rewrite Hb in H1.
  - pose proof (render_steps_cache self f wa) as Hc.
    pose proof (render_steps_outcome self f wa) as Ho.
    pose proof (render_steps_trace self f wa) as Ht.
    rewrite H1 in Hc, Ho, Ht. simpl in Hc, Ho, Ht. rewrite <- Ho in Hc, Ht.
    split; [ | exact Hc ]. simpl. rewrite Ht, !renders_app,
      renders_render_events, renders_cache_get. lia.
  - injection H1 as <-. simpl. rewrite renders_app, renders_cache_get. lia.
Qed.

(** C3: when [generate_now] reaches the render and [file._generate()]
    raises, that exception is the outcome, the render was called once, it is
    the last thing that happened, and the cache holds [GENERATING] for the
    file. *)
Theorem generate_now_render_raises (self : Backend) (f : File) (force : bool)
  (w : World) (e : Exn) :
  (force = true \/
   exists state w0, get_state self f true w = (Return state, w0)
                    /\ blocks state = false) ->
  fst (_generate f (storage w)) = Raise e ->
  let w' := snd (generate_now self f force w) in
  fst (generate_now self f force w) = Raise e
  /\ cache w' !! get_key f =
       Some {| value := CacheFileState.GENERATING; timeout := None |}
  /\ renders (name f) (trace w') = S (renders (name f) (trace w))
  /\ last (trace w') = Some (EvGenerate (name f)).
Proof.
  intros Hguard He. cbv zeta.
  assert (exists wa, generate_now self f force w = render_steps self f wa
                     /\ storage wa = storage w
                     /\ renders (name f) (trace wa) = renders (name f) (trace w))
    as (wa & -> & Hs & Hr).
  { destruct force.
    - exists w. split; [ apply generate_now_forced | split; reflexivity ].
    - destruct Hguard as [Hf | (state & w0 & Hg & Hb)]; [ discriminate Hf | ].
      exists w0. rewrite generate_now_unforced, Hg, Hb.
      pose proof (get_state_storage self f true w) as Hs.
      pose proof (get_state_renders self f true w (name f)) as Hr.
      rewrite Hg in Hs, Hr. simpl in Hs, Hr. auto. }
  rewrite render_steps_outcome, render_steps_cache, render_steps_trace,
    renders_app, renders_render_events, Hs, He.
  split; [ reflexivity | ]. split; [ reflexivity | ]. split; [ lia | ].
  unfold render_events. simpl.
  replace (trace wa ++ [EvCacheSet (get_key f) CacheFileState.GENERATING None;
                        EvGenerate (name f)])
    with ((trace wa ++ [EvCacheSet (get_key f) CacheFileState.GENERATING None])
          ++ [EvGenerate (name f)])
    by (rewrite <- app_assoc; reflexivity).
  apply last_snoc.
Qed.

(** ** The dispatchers *)

(** C6: [Async.generate] reads the state without probing, one cache read and
    nothing else, and puts exactly one task (backend, file, force) on the
    queue when that state is neither [GENERATING] nor [EXISTS], none
    otherwise, so none when the cache says [EXISTS]; a worker running the
    task calls [generate_now] with the same force flag. *)
Theorem Async_generate_enqueues (self : Backend) (f : File) (force : bool)
  (w : World) :
  celery w = true ->
  let state := value <$> cache w !! get_key f in
  let task := {| t_backend := self; t_file := f; t_force := force |} in
  let w' := snd (Async_generate self f force w) in
  get_state self f false w = (Return state, log (EvCacheGet (get_key f)) w)
  /\ fst (Async_generate self f force w) = Return tt
  /\ trace w' = trace w ++ [EvCacheGet (get_key f)]
  /\ cache w' = cache w
  /\ storage w' = storage w
  /\ queue w' = queue w ++ (if blocks state then [] else [task])
  /\ (state = Some CacheFileState.EXISTS -> queue w' = queue w)
  /\ (forall w1, run_task task w1 = generate_now self f force w1)
  /\ (cls self = Async ->
      generate self f force w = Async_generate self f force w).
Proof.
  intros Hc. cbv zeta.
  assert (get_state self f false w =
          (Return (value <$> cache w !! get_key f),
           log (EvCacheGet (get_key f)) w)) as Hg.
  { destruct (cache w !! get_key f) as [e | ] eqn:H.
    - apply get_state_hit. exact H.
    - apply get_state_unchecked. exact H. }
  split; [ exact Hg | ].
  assert (Async_generate self f force w =
          (Return tt,
           with_queue
             (queue w ++
              (if blocks (value <$> cache w !! get_key f) then []
               else [{| t_backend := self; t_file := f; t_force := force |}]))
             (log (EvCacheGet (get_key f)) w))) as Ha.
  { unfold Async_generate. rewrite bind_run, Hg, py_in_blocks.
    destruct (blocks _); simpl.
    - unfold ret, with_queue. simpl. rewrite app_nil_r. reflexivity.
    - unfold delay. simpl. rewrite Hc. reflexivity. }
  rewrite Ha. simpl. repeat (split; [ reflexivity | ]).
  split; [ | split ].
  - intros ->. simpl. apply app_nil_r.
  - intros w1. reflexivity.
  - intros Hcls. unfold generate. rewrite Hcls. exact Ha.
Qed.

(** C7: without celery, [Async.__init__] raises [ImproperlyConfigured] at
    once and so does the construction [Async()]: no instance is returned and
    the world is left as it was, nothing read, rendered or queued. *)
Theorem Async_init_fails_fast (self : Backend) (w : World) :
  celery w = false ->
  Async_init self w =
    (Raise (ImproperlyConfigured
              "You must install celery to use imagekit.cachefiles.backend.Async."),
     w)
  /\ Async_new w =
       (Raise (ImproperlyConfigured
                 "You must install celery to use imagekit.cachefiles.backend.Async."),
        w)
  /\ (forall b, fst (Async_new w) <> Return b).
Proof.
  intros Hc.
  assert (Async_init self w =
          (Raise (ImproperlyConfigured
                    "You must install celery to use imagekit.cachefiles.backend.Async."),
           w)) as Hi.
  { unfold Async_init. rewrite Hc. reflexivity. }
  assert (Async_new w =
          (Raise (ImproperlyConfigured
                    "You must install celery to use imagekit.cachefiles.backend.Async."),
           w)) as Hn.
  { unfold Async_new, bind, Async_init. rewrite Hc. reflexivity. }
  split; [ exact Hi | ]. split; [ exact Hn | ].
  intros b. rewrite Hn. discriminate.
Qed.

(** With celery, the construction returns an [Async] backend with the default
    timeout and touches nothing. *)
Lemma Async_new_ok w :
  celery w = true -> Async_new w = (Return (new_backend Async), w).
Proof. intros Hc. unfold Async_new, bind, Async_init. rewrite Hc. reflexivity. Qed.

(** C8: [exists] is true exactly when [get_state], probing allowed, gives
    [EXISTS], and does nothing beyond that read; the probe of [Simple], which
    [Async] inherits, answers true exactly when a truthy [_file] is attached
    to the file or the storage holds the file's name. *)
Theorem exists_iff_state_exists (self : Backend) (f : File) (w : World) :
  snd (exists_ self f w) = snd (get_state self f true w)
  /\ (fst (exists_ self f w) = Return true <->
      fst (get_state self f true w) = Return (Some CacheFileState.EXISTS))
  /\ (forall state, fst (get_state self f true w) = Return state ->
      fst (exists_ self f w) =
        Return (bool_decide (state = Some CacheFileState.EXISTS)))
  /\ (cls self <> CachedFileBackend -> _exists self f w = Simple_exists f w)
  /\ (fst (Simple_exists f w) = Return true <->
      staged f \/ name f ∈ storage w)
  /\ (fst (Simple_exists f w) = Return false <->
      ~ (staged f \/ name f ∈ storage w)).
Proof.
  unfold exists_. rewrite bind_run.
  destruct (get_state self f true w) as [[state | e] w1]; simpl.
  - split; [ reflexivity | ]. split.
    { unfold ret. simpl. split.
      - intros [= H]. apply bool_decide_eq_true in H. congruence.
      - intros [= ->]. f_equal. }
    split; [ intros s [= ->]; reflexivity | ].
    split; [ apply _exists_concrete | ].
    rewrite Simple_exists_run. simpl. rewrite <- probe_answer_true.
    split; [ split; congruence | ].
    destruct (probe_answer f (storage w)); split; congruence.
  - split; [ reflexivity | ]. split; [ split; discriminate | ].
    split; [ discriminate | ].
    split; [ apply _exists_concrete | ].
    rewrite Simple_exists_run. simpl. rewrite <- probe_answer_true.
    split; [ split; congruence | ].
    destruct (probe_answer f (storage w)); split; congruence.
Qed.

(** ** Pickling *)

Lemma fresh_dict_unused (h : Heap) : h !! fresh (dom h) = None.
Proof. apply not_elem_of_dom. apply is_fresh. Qed.

Lemma getstate_run (self_dict : positive) (h : Heap) (attrs : Dict) :
  h !! self_dict = Some attrs ->
  __getstate__ self_dict h =
  Some (fresh (dom h), <[fresh (dom h) := delete "_cache" attrs]> h).
Proof.
  intros H. unfold __getstate__, copy, dict_pop. rewrite H.
  rewrite lookup_insert_eq, insert_insert_eq. reflexivity.
Qed.

(** C9: the snapshot [__getstate__] returns is a new dictionary that has no
    [_cache] item and agrees with the instance's dictionary on every other
    attribute; the instance's own dictionary, [_cache] included, and every
    other object are left as they were. *)
Theorem getstate_omits_cache (self_dict : positive) (h : Heap) (attrs : Dict) :
  h !! self_dict = Some attrs ->
  exists state h',
    __getstate__ self_dict h = Some (state, h')
    /\ state <> self_dict
    /\ h !! state = None
    /\ h' !! state = Some (delete "_cache" attrs)
    /\ delete "_cache" attrs !! "_cache" = None
    /\ (forall k, k <> "_cache" -> delete "_cache" attrs !! k = attrs !! k)
    /\ h' !! self_dict = Some attrs
    /\ (forall d, d <> state -> h' !! d = h !! d).
Proof.
  intros H. exists (fresh (dom h)), (<[fresh (dom h) := delete "_cache" attrs]> h).
  pose proof (fresh_dict_unused h) as Hfresh.
  assert (fresh (dom h) <> self_dict) as Hne by congruence.
  split; [ apply getstate_run; exact H | ].
  split; [ exact Hne | ]. split; [ exact Hfresh | ].
  split; [ apply lookup_insert_eq | ].
  split; [ apply lookup_delete_eq | ].
  split; [ intros k Hk; apply lookup_delete_ne; congruence | ].
  split; [ rewrite lookup_insert_ne by exact Hne; exact H | ].
  intros d Hd. apply lookup_insert_ne. congruence.
Qed.

(** Once the [cache] property has put a handle in [_cache], the instance
    keeps it through [__getstate__] and the snapshot does not have it. *)
Lemma getstate_after_cache_property self_dict h attrs c h1 :
  h !! self_dict = Some attrs ->
  cache_property self_dict h = Some (c, h1) ->
  exists attrs1 state h2,
    h1 !! self_dict = Some attrs1
    /\ (truthy c = true -> attrs1 !! "_cache" = Some c)
    /\ __getstate__ self_dict h1 = Some (state, h2)
    /\ h2 !! self_dict = Some attrs1
    /\ (forall snapshot, h2 !! state = Some snapshot ->
        snapshot !! "_cache" = None).
Proof.
  intros H Hp. unfold cache_property in Hp. rewrite H in Hp.
  assert (exists attrs1, h1 !! self_dict = Some attrs1
          /\ (truthy c = true -> attrs1 !! "_cache" = Some c))
    as (attrs1 & H1 & Hc).
  { destruct (truthy (default PyNone (attrs !! "_cache"))) eqn:Ht;
      simpl in Hp; injection Hp as <- <-.
    - exists attrs. split; [ exact H | ]. intros _.
      destruct (attrs !! "_cache") as [v | ]; [ reflexivity | discriminate Ht ].
    - eexists. split; [ apply lookup_insert_eq | ].
      intros _. apply lookup_insert_eq. }
  exists attrs1, (fresh (dom h1)),
    (<[fresh (dom h1) := delete "_cache" attrs1]> h1).
  assert (fresh (dom h1) <> self_dict) as Hne.
  { pose proof (fresh_dict_unused h1). congruence. }
  split; [ exact H1 | ]. split; [ exact Hc | ].
  split; [ apply getstate_run; exact H1 | ].
  split; [ rewrite lookup_insert_ne by exact Hne; exact H1 | ].
  intros snapshot Hsnap. rewrite lookup_insert_eq in Hsnap.
  injection Hsnap as <-. apply lookup_delete_eq.
Qed.

(** ** The tri-state invariant *)

Lemma is_state_of_probe b : is_state (state_of_probe b) = true.
Proof. destruct b; reflexivity. Qed.

Lemma cache_wf_stored self f state w :
  is_state state = true ->
  cache_wf (cache w) -> cache_wf (cache (stored self f state w)).
Proof.
  intros Hs Hw. unfold stored, cache_wf. simpl.
  apply map_Forall_insert_2; [ exact Hs | exact Hw ].
Qed.

Lemma get_state_cache_wf self f check w :
  cache_wf (cache w) -> cache_wf (cache (snd (get_state self f check w))).
Proof.
  intros Hw. destruct (cache w !! get_key f) as [e | ] eqn:H.
  - rewrite (get_state_hit _ _ _ _ _ H). exact Hw.
  - destruct check.
    + rewrite get_state_miss by exact H.
      pose proof (_exists_frame self f (log (EvCacheGet (get_key f)) w))
        as (Hc & _ & _).
      destruct (_exists self f _) as [[b | e] w1]; simpl in Hc |- *.
      * apply cache_wf_stored; [ apply is_state_of_probe | ].
        rewrite Hc. exact Hw.
      * rewrite Hc. exact Hw.
    + rewrite get_state_unchecked by exact H. exact Hw.
Qed.

Lemma render_steps_cache_wf self f w :
  cache_wf (cache w) -> cache_wf (cache (snd (render_steps self f w))).
Proof.
  intros Hw. unfold render_steps. rewrite set_state_run.
  unfold call_generate. simpl.
  destruct (_generate f (storage w)) as [[[] | e] s]; simpl;
    repeat (apply map_Forall_insert_2; [ reflexivity | ]); exact Hw.
Qed.

Lemma generate_now_cache_wf self f force w :
  cache_wf (cache w) -> cache_wf (cache (snd (generate_now self f force w))).
Proof.
  intros Hw. destruct force.
  - rewrite generate_now_forced. apply render_steps_cache_wf. exact Hw.
  - rewrite generate_now_unforced.
    pose proof (get_state_cache_wf self f true w Hw) as Hg.
    destruct (get_state self f true w) as [[state | e] w1]; simpl in Hg;
      [ | exact Hg ].
    destruct (blocks state); [ exact Hg | ].
    apply render_steps_cache_wf. exact Hg.
Qed.

Lemma Async_generate_cache_wf self f force w :
  cache_wf (cache w) -> cache_wf (cache (snd (Async_generate self f force w))).
Proof.
  intros Hw. unfold Async_generate. rewrite bind_run.
  pose proof (get_state_cache_wf self f false w Hw) as Hg.
  destruct (get_state self f false w) as [[state | e] w1]; simpl in Hg;
    [ | exact Hg ].
  destruct (negb _); [ | exact Hg ].
  unfold delay. destruct (celery w1); exact Hg.
Qed.

(** C10: on a cache whose records all hold one of the three states, a
    [get_state] with probing never answers [None]: what it returns is one of
    [EXISTS], [GENERATING], [DOES_NOT_EXIST]; for [Simple] and [Async] it
    does return; and reads, generations and dispatches keep the cache in
    that shape. *)
Theorem get_state_tri_state (self : Backend) (f : File) (w : World) :
  cache_wf (cache w) ->
  (forall state w', get_state self f true w = (Return state, w') ->
     exists s, state = Some s /\ is_state s = true)
  /\ (cls self <> CachedFileBackend ->
      exists s w', get_state self f true w = (Return (Some s), w')
                   /\ is_state s = true)
  /\ cache_wf (cache (snd (get_state self f true w)))
  /\ (forall force, cache_wf (cache (snd (generate_now self f force w))))
  /\ (forall force, cache_wf (cache (snd (generate self f force w)))).
Proof.
  intros Hw. split; [ | split; [ | split; [ | split ] ] ].
  - intros state w' Hg.
    pose proof (get_state_cache_wf self f true w Hw) as Hw'.
    rewrite Hg in Hw'. simpl in Hw'.
    destruct (get_state_caches _ _ _ _ _ Hg) as (e & He & ->).
    exists (value e). split; [ reflexivity | ].
    exact (Hw' _ _ He).
  - intros Hc. destruct (cache w !! get_key f) as [e | ] eqn:H.
    + rewrite (get_state_hit _ _ _ _ _ H). do 2 eexists.
      split; [ reflexivity | ]. exact (Hw _ _ H).
    + rewrite get_state_probe by assumption. do 2 eexists.
      split; [ reflexivity | ]. apply is_state_of_probe.
  - apply get_state_cache_wf. exact Hw.
  - intros force. apply generate_now_cache_wf. exact Hw.
  - intros force. unfold generate. destruct (cls self).
    + exact Hw.
    + apply generate_now_cache_wf. exact Hw.
    + apply Async_generate_cache_wf. exact Hw.
Qed.

(** * Further properties of the module *)

(** ** Frames: what the operations leave alone *)

Lemma stored_other self f state w k :
  k <> get_key f -> cache (stored self f state w) !! k = cache w !! k.
Proof. intros Hk. unfold stored. simpl. apply lookup_insert_ne. congruence. Qed.

Lemma _exists_queue self f w : queue (snd (_exists self f w)) = queue w.
Proof.
  unfold _exists. destruct (cls self); simpl; [ reflexivity | | ];
    rewrite Simple_exists_run; apply probed_queue.
Qed.

Lemma exists_run self f w :
  exists_ self f w =
  match get_state self f true w with
  | (Return state, w1) =>
      (Return (bool_decide (state = Some CacheFileState.EXISTS)), w1)
  | (Raise e, w1) => (Raise e, w1)
  end.
Proof. reflexivity. Qed.

Lemma exists_world self f w :
  snd (exists_ self f w) = snd (get_state self f true w).
Proof.
  rewrite exists_run. destruct (get_state self f true w) as [[state | e] w1];
    reflexivity.
Qed.

Lemma get_state_other self f check w k :
  k <> get_key f -> cache (snd (get_state self f check w)) !! k = cache w !! k.
Proof.
  intros Hk. destruct (cache w !! get_key f) as [e | ] eqn:H.
  - rewrite (get_state_hit _ _ _ _ _ H). reflexivity.
  - destruct check.
    + rewrite get_state_miss by exact H.
      pose proof (_exists_frame self f (log (EvCacheGet (get_key f)) w))
        as (Hc & _ & _).
      destruct (_exists self f _) as [[b | e] w1]; simpl in Hc |- *.
      * rewrite lookup_insert_ne by congruence. rewrite Hc. reflexivity.
      * rewrite Hc. reflexivity.
    + rewrite get_state_unchecked by exact H. reflexivity.
Qed.

Lemma get_state_queue self f check w :
  queue (snd (get_state self f check w)) = queue w.
Proof.
  destruct (cache w !! get_key f) as [e | ] eqn:H.
  - rewrite (get_state_hit _ _ _ _ _ H). reflexivity.
  - destruct check.
    + rewrite get_state_miss by exact H.
      pose proof (_exists_queue self f (log (EvCacheGet (get_key f)) w)) as Hq.
      destruct (_exists self f _) as [[b | e] w1]; simpl in Hq |- *; exact Hq.
    + rewrite get_state_unchecked by exact H. reflexivity.
Qed.

Lemma render_steps_other self f w k :
  k <> get_key f -> cache (snd (render_steps self f w)) !! k = cache w !! k.
Proof.
  intros Hk. unfold render_steps. rewrite set_state_run.
  unfold call_generate. simpl.
  destruct (_generate f (storage w)) as [[[] | e] s]; simpl;
    rewrite !lookup_insert_ne by congruence; reflexivity.
Qed.

Lemma render_steps_queue self f w :
  queue (snd (render_steps self f w)) = queue w.
Proof.
  unfold render_steps. rewrite set_state_run. unfold call_generate. simpl.
  destruct (_generate f (storage w)) as [[[] | e] s]; reflexivity.
Qed.

Lemma generate_now_other self f force w k :
  k <> get_key f ->
  cache (snd (generate_now self f force w)) !! k = cache w !! k.
Proof.
  intros Hk. destruct force.
  - rewrite generate_now_forced. apply render_steps_other. exact Hk.
  - rewrite generate_now_unforced.
    pose proof (get_state_other self f true w k Hk) as Hg.
    destruct (get_state self f true w) as [[state | e] w1]; simpl in Hg;
      [ | exact Hg ].
    destruct (blocks state); [ exact Hg | ].
    rewrite render_steps_other by exact Hk. exact Hg.
Qed.

Lemma generate_now_queue self f force w :
  queue (snd (generate_now self f force w)) = queue w.
Proof.
  destruct force.
  - rewrite generate_now_forced. apply render_steps_queue.
  - rewrite generate_now_unforced.
    pose proof (get_state_queue self f true w) as Hg.
    destruct (get_state self f true w) as [[state | e] w1]; simpl in Hg;
      [ | exact Hg ].
    destruct (blocks state); [ exact Hg | ].
    rewrite render_steps_queue. exact Hg.
Qed.

Lemma Async_generate_cache self f force w :
  cache (snd (Async_generate self f force w)) = cache w.
Proof.
  unfold Async_generate. rewrite bind_run.
  assert (get_state self f false w =
          (Return (value <$> cache w !! get_key f),
           log (EvCacheGet (get_key f)) w)) as ->.
  { destruct (cache w !! get_key f) as [e | ] eqn:H.
    - apply get_state_hit. exact H.
    - apply get_state_unchecked. exact H. }
  destruct (negb _); [ | reflexivity ].
  unfold delay. simpl. destruct (celery w); reflexivity.
Qed.

(** X7: the operations on a file touch the cache at that file's key only:
    every record under another key is what it was, after [get_state],
    [set_state], [generate_now] and the dispatch [generate]. *)
Theorem other_keys_untouched (self : Backend) (f : File) (w : World)
  (k : string) :
  k <> get_key f ->
  (forall check, cache (snd (get_state self f check w)) !! k = cache w !! k)
  /\ (forall state, cache (snd (set_state self f state w)) !! k = cache w !! k)
  /\ (forall force, cache (snd (generate_now self f force w)) !! k = cache w !! k)
  /\ (forall force, cache (snd (generate self f force w)) !! k = cache w !! k)
  /\ cache (snd (exists_ self f w)) !! k = cache w !! k.
Proof.
  intros Hk. split; [ | split; [ | split; [ | split ] ] ].
  - intros check. apply get_state_other. exact Hk.
  - intros state. rewrite set_state_run. apply stored_other. exact Hk.
  - intros force. apply generate_now_other. exact Hk.
  - intros force. unfold generate. destruct (cls self).
    + reflexivity.
    + apply generate_now_other. exact Hk.
    + rewrite Async_generate_cache. reflexivity.
  - rewrite exists_world. apply get_state_other. exact Hk.
Qed.

(** X8: reading the state never renders, never changes the storage and never
    queues a task, whether through [get_state], with or without the probe,
    or through [exists]. *)
Theorem state_reads_are_passive (self : Backend) (f : File) (check : bool)
  (w : World) :
  (storage (snd (get_state self f check w)) = storage w
   /\ queue (snd (get_state self f check w)) = queue w
   /\ forall n, renders n (trace (snd (get_state self f check w)))
                = renders n (trace w))
  /\ (storage (snd (exists_ self f w)) = storage w
      /\ queue (snd (exists_ self f w)) = queue w
      /\ forall n, renders n (trace (snd (exists_ self f w)))
                   = renders n (trace w)).
Proof.
  split; (split; [ | split ]).
  - apply get_state_storage.
  - apply get_state_queue.
  - intros n. apply get_state_renders.
  - rewrite exists_world. apply get_state_storage.
  - rewrite exists_world. apply get_state_queue.
  - intros n. rewrite exists_world. apply get_state_renders.
Qed.

(** X9: [generate_now] never queues a task, so neither does [Simple.generate]
    nor a worker running [_generate_file]: the queue after is the queue
    before, whatever the outcome. *)
Theorem generation_never_enqueues (self : Backend) (f : File) (force : bool)
  (w : World) :
  queue (snd (generate_now self f force w)) = queue w
  /\ queue (snd (Simple_generate self f force w)) = queue w
  /\ queue (snd (run_task {| t_backend := self; t_file := f;
                             t_force := force |} w)) = queue w
  /\ (cls self = Simple -> queue (snd (generate self f force w)) = queue w).
Proof.
  split; [ | split; [ | split ] ].
  - apply generate_now_queue.
  - apply generate_now_queue.
  - apply generate_now_queue.
  - intros Hc. unfold generate. rewrite Hc. apply generate_now_queue.
Qed.

(** ** Sequences of calls *)

Lemma blocks_inv state :
  blocks state = true ->
  state = Some CacheFileState.GENERATING \/ state = Some CacheFileState.EXISTS.
Proof. unfold blocks. apply bool_decide_eq_true. Qed.

Lemma exists_hit self f w e :
  cache w !! get_key f = Some e ->
  exists_ self f w =
  (Return (bool_decide (Some (value e) = Some CacheFileState.EXISTS)),
   log (EvCacheGet (get_key f)) w).
Proof. intros H. rewrite exists_run, (get_state_hit _ _ _ _ _ H). reflexivity. Qed.

(** When the rendering steps return, the file's record says [EXISTS]. *)
Lemma render_steps_returns self f w w1 :
  render_steps self f w = (Return tt, w1) ->
  cache w1 !! get_key f =
    Some {| value := CacheFileState.EXISTS; timeout := None |}
  /\ renders (name f) (trace w1) = S (renders (name f) (trace w)).
Proof.
  intros H. pose proof (render_steps_cache self f w) as Hc.
  pose proof (render_steps_outcome self f w) as Ho.
  pose proof (render_steps_trace self f w) as Ht.
  rewrite H in Hc, Ho, Ht. simpl in Hc, Ho, Ht. rewrite <- Ho in Hc, Ht.
  split; [ exact Hc | ].
  rewrite Ht, renders_app, renders_render_events. lia.
Qed.


(** X4: when [generate_now] returns, the file's record is [EXISTS], and
    [exists] then answers true from the cache alone; the one exception is
    an unforced call that found the record [GENERATING], which leaves it so
    and renders nothing. *)
Theorem generate_now_returns_state (self : Backend) (f : File) (force : bool)
  (w w1 : World) :
  generate_now self f force w = (Return tt, w1) ->
  (value <$> cache w1 !! get_key f = Some CacheFileState.EXISTS
   /\ exists_ self f w1 = (Return true, log (EvCacheGet (get_key f)) w1))
  \/ (force = false
      /\ fst (get_state self f true w) = Return (Some CacheFileState.GENERATING)
      /\ value <$> cache w1 !! get_key f = Some CacheFileState.GENERATING
      /\ renders (name f) (trace w1) = renders (name f) (trace w)).
Proof.
  intros H.
  assert (forall e, cache w1 !! get_key f = Some e ->
                    value e = CacheFileState.EXISTS ->
                    value <$> cache w1 !! get_key f = Some CacheFileState.EXISTS
                    /\ exists_ self f w1 =
                         (Return true, log (EvCacheGet (get_key f)) w1)) as Hex.
  { intros e He Hv. rewrite (exists_hit _ _ _ _ He), He. simpl. rewrite Hv.
    split; reflexivity. }
  destruct force.
  - left. rewrite generate_now_forced in H.
    destruct (render_steps_returns _ _ _ _ H) as [Hc _].
    exact (Hex _ Hc eq_refl).
  - rewrite generate_now_unforced in H.
    pose proof (get_state_renders self f true w (name f)) as Hr.
    destruct (get_state self f true w) as [[state | e] wa] eqn:Hg;
      [ | discriminate ].
    destruct (get_state_caches _ _ _ _ _ Hg) as (e & He & ->). simpl in Hr.
    destruct (blocks (Some (value e))) eqn:Hb.
    + injection H as <-.
      destruct (blocks_inv _ Hb) as [[= Hv] | [= Hv]].
      * right. split; [ reflexivity | ]. rewrite He. simpl. rewrite Hv.
        split; [ reflexivity | ]. split; [ reflexivity | exact Hr ].
      * left. exact (Hex _ He Hv).
    + left. destruct (render_steps_returns _ _ _ _ H) as [Hc _].
      exact (Hex _ Hc eq_refl).
Qed.

(** Under the guard of [generate_now], the call is the rendering steps run
    in a world with the same storage and the same count of renders. *)
Lemma generate_now_reaches_render self f force w :
  (force = true \/
   exists state w0, get_state self f true w = (Return state, w0)
                    /\ blocks state = false) ->
  exists wa, generate_now self f force w = render_steps self f wa
             /\ storage wa = storage w
             /\ renders (name f) (trace wa) = renders (name f) (trace w).
Proof.
  intros Hguard. destruct force.
  - exists w. split; [ apply generate_now_forced | split; reflexivity ].
  - destruct Hguard as [Hf | (state & w0 & Hg & Hb)]; [ discriminate Hf | ].
    exists w0. rewrite generate_now_unforced, Hg, Hb.
    pose proof (get_state_storage self f true w) as Hs.
    pose proof (get_state_renders self f true w (name f)) as Hr.
    rewrite Hg in Hs, Hr. simpl in Hs, Hr. auto.
Qed.

(** X10: a failed render leaves the file stuck: the record stays
    [GENERATING], so every later unforced [generate_now] returns without
    rendering, [exists] answers false, and [Async.generate] queues nothing
    whatever its force flag; only a forced [generate_now] renders again. *)
Theorem failed_render_blocks_until_forced (self : Backend) (f : File)
  (force : bool) (w : World) (e : Exn) :
  (force = true \/
   exists state w0, get_state self f true w = (Return state, w0)
                    /\ blocks state = false) ->
  fst (_generate f (storage w)) = Raise e ->
  let w' := snd (generate_now self f force w) in
  generate_now self f false w' = (Return tt, log (EvCacheGet (get_key f)) w')
  /\ exists_ self f w' = (Return false, log (EvCacheGet (get_key f)) w')
  /\ (forall force', Async_generate self f force' w' =
                     (Return tt, log (EvCacheGet (get_key f)) w'))
  /\ renders (name f) (trace (snd (generate_now self f true w'))) =
       S (renders (name f) (trace w')).
Proof.
  intros Hguard He. cbv zeta.
  destruct (generate_now_reaches_render _ _ _ _ Hguard) as (wa & -> & Hs & _).
  pose proof (render_steps_cache self f wa) as Hc.
  rewrite Hs, He in Hc. set (w' := snd (render_steps self f wa)) in *.
  split; [ | split; [ | split ] ].
  - rewrite generate_now_unforced, (get_state_hit _ _ _ _ _ Hc). reflexivity.
  - rewrite (exists_hit _ _ _ _ Hc). reflexivity.
  - intros force'. unfold Async_generate.
    rewrite bind_run, (get_state_hit _ _ _ _ _ Hc). reflexivity.
  - rewrite generate_now_forced, render_steps_trace, renders_app,
      renders_render_events. lia.
Qed.

(** X11: [Async.generate] does not look at its force flag: when the record
    is [GENERATING] or [EXISTS] it reads the cache and returns, queueing
    nothing, forced or not, with or without celery; the synchronous
    [Simple.generate] on the same world renders when forced. *)
Theorem Async_dispatch_ignores_force (self : Backend) (f : File) (w : World) :
  blocks (value <$> cache w !! get_key f) = true ->
  (forall force, Async_generate self f force w =
                 (Return tt, log (EvCacheGet (get_key f)) w))
  /\ renders (name f) (trace (snd (Simple_generate self f true w))) =
       S (renders (name f) (trace w)).
Proof.
  intros Hb. split.
  - intros force. unfold Async_generate. rewrite bind_run.
    destruct (cache w !! get_key f) as [e | ] eqn:H; [ | discriminate Hb ].
    rewrite (get_state_hit _ _ _ _ _ H), py_in_blocks. simpl in Hb.
    rewrite Hb. reflexivity.
  - unfold Simple_generate. rewrite generate_now_forced, render_steps_trace,
      renders_app, renders_render_events. lia.
Qed.

(** X12: a file with a truthy [_file] attached counts as existing without
    the storage being asked: on a cache miss an unforced [generate_now] of a
    [Simple] or [Async] backend probes, records [EXISTS] with no timeout and
    returns, rendering nothing, even when the storage lacks the file. *)
Theorem staged_file_is_not_rendered (self : Backend) (f : File) (w : World) :
  cls self <> CachedFileBackend ->
  cache w !! get_key f = None ->
  truthy (default PyNone (_file f)) = true ->
  let w' := snd (generate_now self f false w) in
  fst (generate_now self f false w) = Return tt
  /\ trace w' = trace w ++ [EvCacheGet (get_key f); EvProbe (name f);
                            EvCacheSet (get_key f) CacheFileState.EXISTS None]
  /\ cache w' !! get_key f =
       Some {| value := CacheFileState.EXISTS; timeout := None |}
  /\ storage w' = storage w.
Proof.
  intros Hc H Ht. cbv zeta.
  rewrite generate_now_unforced, get_state_probe by assumption.
  unfold probe_answer, probed. rewrite Ht. simpl.
  split; [ reflexivity | ]. split; [ | split ].
  - rewrite <- !app_assoc. reflexivity.
  - apply lookup_insert_eq.
  - reflexivity.
Qed.

(** ** The life of an unknown file *)

(** An unforced call on a file no record and no probe knows of: the probe's
    negative answer is recorded, then the rendering steps run. *)
Lemma generate_now_unknown self f w :
  cls self <> CachedFileBackend ->
  cache w !! get_key f = None ->
  probe_answer f (storage w) = false ->
  generate_now self f false w =
  render_steps self f
    (stored self f CacheFileState.DOES_NOT_EXIST
       (log (EvStorageExists (name f))
          (log (EvProbe (name f)) (log (EvCacheGet (get_key f)) w)))).
Proof.
  intros Hc H Hp. rewrite generate_now_unforced, get_state_probe by assumption.
  rewrite Hp. unfold probed. unfold probe_answer in Hp.
  apply orb_false_iff in Hp as [-> _]. reflexivity.
Qed.

(** X13: on a file that has no record, no truthy [_file] and is not in the
    storage, an unforced [generate_now] of a [Simple] or [Async] backend
    whose render returns goes through the states in order: it reads the
    cache, probes, asks the storage, records [DOES_NOT_EXIST] with the
    backend's timeout, records [GENERATING], renders, records [EXISTS]. *)
Theorem unknown_file_lifecycle (self : Backend) (f : File) (w : World) :
  cls self <> CachedFileBackend ->
  cache w !! get_key f = None ->
  probe_answer f (storage w) = false ->
  fst (_generate f (storage w)) = Return tt ->
  let w' := snd (generate_now self f false w) in
  fst (generate_now self f false w) = Return tt
  /\ trace w' =
       trace w ++
       [EvCacheGet (get_key f);
        EvProbe (name f);
        EvStorageExists (name f);
        EvCacheSet (get_key f) CacheFileState.DOES_NOT_EXIST
                   (Some (existence_check_timeout self));
        EvCacheSet (get_key f) CacheFileState.GENERATING None;
        EvGenerate (name f);
        EvCacheSet (get_key f) CacheFileState.EXISTS None]
  /\ cache w' !! get_key f =
       Some {| value := CacheFileState.EXISTS; timeout := None |}
  /\ storage w' = snd (_generate f (storage w)).
Proof.
  intros Hc H Hp Hr. cbv zeta. rewrite generate_now_unknown by assumption.
  rewrite render_steps_outcome, render_steps_trace, render_steps_cache.
  simpl storage. rewrite Hr. split; [ reflexivity | ].
  split; [ | split; [ reflexivity | ] ].
  - unfold render_events. simpl. rewrite <- !app_assoc. reflexivity.
  - unfold render_steps. rewrite set_state_run. unfold call_generate. simpl.
    destruct (_generate f (storage w)) as [[[] | e] s]; reflexivity.
Qed.

Lemma Async_generate_run self f force w :
  celery w = true ->
  Async_generate self f force w =
  (Return tt,
   with_queue
     (queue w ++
      (if blocks (value <$> cache w !! get_key f) then []
       else [{| t_backend := self; t_file := f; t_force := force |}]))
     (log (EvCacheGet (get_key f)) w)).
Proof.
  intros Hc. unfold Async_generate. rewrite bind_run.
  assert (get_state self f false w =
          (Return (value <$> cache w !! get_key f),
           log (EvCacheGet (get_key f)) w)) as ->.
  { destruct (cache w !! get_key f) as [e | ] eqn:H.
    - apply get_state_hit. exact H.
    - apply get_state_unchecked. exact H. }
  rewrite py_in_blocks. destruct (blocks _); simpl.
  - unfold ret, with_queue. simpl. rewrite app_nil_r. reflexivity.
  - unfold delay. simpl. rewrite Hc. reflexivity.
Qed.

(** X6: the asynchronous path end to end.  For an [Async] backend with
    celery, on a file with no record that the probe does not find and whose
    render returns: [generate] queues one task and renders nothing; a worker
    running the task renders once and records [EXISTS]; a worker running
    the same task again only reads the cache. *)
Theorem Async_task_renders_once (self : Backend) (f : File) (w : World) :
  cls self = Async ->
  celery w = true ->
  cache w !! get_key f = None ->
  probe_answer f (storage w) = false ->
  fst (_generate f (storage w)) = Return tt ->
  let task := {| t_backend := self; t_file := f; t_force := false |} in
  let w1 := snd (generate self f false w) in
  let w2 := snd (run_task task w1) in
  queue w1 = queue w ++ [task]
  /\ renders (name f) (trace w1) = renders (name f) (trace w)
  /\ fst (run_task task w1) = Return tt
  /\ renders (name f) (trace w2) = S (renders (name f) (trace w))
  /\ cache w2 !! get_key f =
       Some {| value := CacheFileState.EXISTS; timeout := None |}
  /\ run_task task w2 = (Return tt, log (EvCacheGet (get_key f)) w2).
Proof.
  intros Hcls Hcel H Hp Hr. cbv zeta.
  assert (cls self <> CachedFileBackend) as Hc by (rewrite Hcls; discriminate).
  unfold generate. rewrite Hcls, Async_generate_run by exact Hcel.
  rewrite H. simpl snd. unfold run_task, _generate_file. simpl t_backend.
  simpl t_file. simpl t_force.
  set (w1 := with_queue _ _).
  split; [ reflexivity | ].
  split; [ simpl; rewrite renders_app, renders_cache_get; lia | ].
  assert (exists w2, generate_now self f false w1 = (Return tt, w2)
                     /\ renders (name f) (trace w2) = S (renders (name f) (trace w))
                     /\ cache w2 !! get_key f =
                          Some {| value := CacheFileState.EXISTS;
                                  timeout := None |})
    as (w2 & Hrun & Hren & Hcache).
  { rewrite generate_now_unknown by assumption.
    destruct (render_steps self f _) as [r w2] eqn:Hs.
    pose proof (render_steps_outcome self f
                  (stored self f CacheFileState.DOES_NOT_EXIST
                     (log (EvStorageExists (name f))
                        (log (EvProbe (name f))
                           (log (EvCacheGet (get_key f)) w1))))) as Ho.
    rewrite Hs in Ho. simpl in Ho. rewrite Hr in Ho. subst r.
    exists w2. split; [ reflexivity | ].
    destruct (render_steps_returns _ _ _ _ Hs) as [Hcache Hren].
    split; [ | exact Hcache ]. rewrite Hren. simpl.
    rewrite !renders_app, !renders_cache_get, renders_probe,
      renders_storage_exists, renders_cache_set. lia. }
  rewrite Hrun. simpl.
  split; [ reflexivity | ]. split; [ exact Hren | ].
  split; [ exact Hcache | ].
  apply (generate_now_again _ _ _ _ Hrun).
Qed.

(** X14: the state is keyed by the file's name alone.  Two file objects of
    the same name share one record whatever else they hold, and so do two
    backend instances: once a forced [generate_now] on one file has
    returned, [exists] on the other answers true from the cache. *)
Theorem same_name_shares_state (self self' : Backend) (f g : File)
  (w w1 : World) :
  name f = name g ->
  generate_now self f true w = (Return tt, w1) ->
  get_key f = get_key g
  /\ exists_ self' g w1 = (Return true, log (EvCacheGet (get_key g)) w1)
  /\ generate_now self' g false w1 =
       (Return tt, log (EvCacheGet (get_key g)) w1).
Proof.
  intros Hn H.
  assert (get_key f = get_key g) as Hk by (unfold get_key; rewrite Hn; reflexivity).
  rewrite generate_now_forced in H.
  destruct (render_steps_returns _ _ _ _ H) as [Hc _]. rewrite Hk in Hc.
  split; [ exact Hk | ]. split.
  - rewrite (exists_hit _ _ _ _ Hc). reflexivity.
  - rewrite generate_now_unforced, (get_state_hit _ _ _ _ _ Hc). reflexivity.
Qed.

(** ** Keys *)




(** ** The cache handle and pickling *)

(** X1: the [cache] property memoizes.  With [get_cache] giving a truthy
    handle, the first access returns a truthy handle and leaves it in
    [_cache]: a truthy handle already there is returned and nothing is
    written; a missing or falsy one is replaced by [get_cache]'s.  A second
    access returns the same handle and writes nothing.  No other attribute
    and no other object changes. *)
Theorem cache_property_memoizes (self_dict : positive) (h : Heap)
  (attrs : Dict) :
  h !! self_dict = Some attrs ->
  truthy (get_cache IMAGEKIT_CACHE_BACKEND) = true ->
  exists c h1 attrs1,
    cache_property self_dict h = Some (c, h1)
    /\ truthy c = true
    /\ cache_property self_dict h1 = Some (c, h1)
    /\ h1 !! self_dict = Some attrs1
    /\ attrs1 !! "_cache" = Some c
    /\ (forall k, k <> "_cache" -> attrs1 !! k = attrs !! k)
    /\ (forall d, d <> self_dict -> h1 !! d = h !! d)
    /\ (truthy (default PyNone (attrs !! "_cache")) = true ->
        attrs !! "_cache" = Some c /\ h1 = h)
    /\ (truthy (default PyNone (attrs !! "_cache")) = false ->
        c = get_cache IMAGEKIT_CACHE_BACKEND).
Proof.
  intros H Hc. unfold cache_property at 1. rewrite H.
  destruct (truthy (default PyNone (attrs !! "_cache"))) eqn:Ht; simpl.
  - destruct (attrs !! "_cache") as [v | ] eqn:Hv; [ | discriminate Ht ].
    simpl in Ht. exists v, h, attrs.
    split; [ reflexivity | ]. split; [ exact Ht | ].
    split. { unfold cache_property. rewrite H, Hv. simpl. rewrite Ht. reflexivity. }
    split; [ exact H | ]. split; [ exact Hv | ].
    split; [ reflexivity | ]. split; [ reflexivity | ].
    split; [ auto | discriminate ].
  - eexists _, _, _. split; [ reflexivity | ]. split; [ exact Hc | ].
    split.
    { unfold cache_property. rewrite lookup_insert_eq, lookup_insert_eq.
      simpl. rewrite Hc. reflexivity. }
    split; [ apply lookup_insert_eq | ]. split; [ apply lookup_insert_eq | ].
    split; [ intros k Hk; apply lookup_insert_ne; congruence | ].
    split; [ intros d Hd; apply lookup_insert_ne; congruence | ].
    split; [ discriminate | reflexivity ].
Qed.

(** X2: the handle is reconstituted from the settings.  Whatever handle the
    instance holds, the [cache] property evaluated on the dictionary
    [__getstate__] returned gives [get_cache (IMAGEKIT_CACHE_BACKEND)] and
    writes it into that dictionary only; the instance's own dictionary is
    still what it was. *)
Theorem getstate_then_cache_reconstitutes (self_dict : positive) (h : Heap)
  (attrs : Dict) :
  h !! self_dict = Some attrs ->
  exists state h1 h2 attrs2,
    __getstate__ self_dict h = Some (state, h1)
    /\ cache_property state h1 = Some (get_cache IMAGEKIT_CACHE_BACKEND, h2)
    /\ h2 !! state = Some attrs2
    /\ attrs2 !! "_cache" = Some (get_cache IMAGEKIT_CACHE_BACKEND)
    /\ (forall k, k <> "_cache" -> attrs2 !! k = attrs !! k)
    /\ h2 !! self_dict = Some attrs.
Proof.
  intros H. pose proof (fresh_dict_unused h) as Hfresh.
  assert (fresh (dom h) <> self_dict) as Hne by congruence.
  eexists _, _, _, _. split; [ apply getstate_run; exact H | ].
  split.
  { unfold cache_property. rewrite lookup_insert_eq, lookup_delete_eq.
    simpl. reflexivity. }
  split; [ apply lookup_insert_eq | ]. split; [ apply lookup_insert_eq | ].
  split.
  { intros k Hk. rewrite lookup_insert_ne by congruence.
    apply lookup_delete_ne. congruence. }
  rewrite !lookup_insert_ne by exact Hne. exact H.
Qed.

(** X3: [__getstate__] does not need a handle to be there.  On an instance
    that never used its cache the snapshot holds exactly the instance's
    attributes, and the snapshot of a snapshot holds what the snapshot
    holds, each in a dictionary of its own. *)
Theorem getstate_without_cache_is_copy (self_dict : positive) (h : Heap)
  (attrs : Dict) :
  h !! self_dict = Some attrs ->
  exists state h1 state2 h2,
    __getstate__ self_dict h = Some (state, h1)
    /\ (attrs !! "_cache" = None -> h1 !! state = Some attrs)
    /\ __getstate__ state h1 = Some (state2, h2)
    /\ h2 !! state2 = h1 !! state
    /\ state2 <> state
    /\ state2 <> self_dict
    /\ h2 !! state = h1 !! state.
Proof.
  intros H. pose proof (fresh_dict_unused h) as Hfresh.
  set (h1 := <[fresh (dom h) := delete "_cache" attrs]> h).
  pose proof (fresh_dict_unused h1) as Hfresh1.
  assert (h1 !! fresh (dom h) = Some (delete "_cache" attrs)) as Hs
    by apply lookup_insert_eq.
  assert (fresh (dom h1) <> fresh (dom h)) as Hne by congruence.
  assert (fresh (dom h1) <> self_dict) as Hne'.
  { intros Heq. rewrite Heq in Hfresh1. unfold h1 in Hfresh1.
    rewrite lookup_insert_ne in Hfresh1 by congruence. congruence. }
  exists (fresh (dom h)), h1, (fresh (dom h1)),
    (<[fresh (dom h1) := delete "_cache" (delete "_cache" attrs)]> h1).
  split; [ apply getstate_run; exact H | ].
  split. { intros Hn. rewrite Hs. f_equal. apply delete_id. exact Hn. }
  split; [ apply getstate_run; exact Hs | ].
  split.
  { rewrite lookup_insert_eq, Hs. f_equal. apply delete_id.
    apply lookup_delete_eq. }
  split; [ exact Hne | ]. split; [ exact Hne' | ].
  apply lookup_insert_ne. exact Hne.
Qed.

(** ** The base class *)

(** X16: [CachedFileBackend] itself is not a usable backend.  Its [generate]
    raises [NotImplementedError] and touches nothing; having no [_exists],
    its [get_state] with probing on a file with no record raises
    [AttributeError] after the cache read, with nothing stored, and so do
    [exists] and an unforced [generate_now], which renders nothing.  A
    forced [generate_now] needs no probe and renders. *)
Theorem base_class_cannot_probe (self : Backend) (f : File) (w : World) :
  cls self = CachedFileBackend ->
  cache w !! get_key f = None ->
  (forall force, generate self f force w = (Raise NotImplementedError, w))
  /\ get_state self f true w =
       (Raise (AttributeError "_exists"), log (EvCacheGet (get_key f)) w)
  /\ exists_ self f w =
       (Raise (AttributeError "_exists"), log (EvCacheGet (get_key f)) w)
  /\ generate_now self f false w =
       (Raise (AttributeError "_exists"), log (EvCacheGet (get_key f)) w)
  /\ renders (name f) (trace (snd (generate_now self f true w))) =
       S (renders (name f) (trace w)).
Proof.
  intros Hc H.
  assert (get_state self f true w =
          (Raise (AttributeError "_exists"), log (EvCacheGet (get_key f)) w))
    as Hg.
  { rewrite get_state_miss by exact H. unfold _exists. rewrite Hc. reflexivity. }
  split; [ intros force; unfold generate; rewrite Hc; reflexivity | ].
  split; [ exact Hg | ].
  split; [ rewrite exists_run, Hg; reflexivity | ].
  split; [ rewrite generate_now_unforced, Hg; reflexivity | ].
  rewrite generate_now_forced, render_steps_trace, renders_app,
    renders_render_events. lia.
Qed.

End Backends.

(** * Concrete runs

    The configuration of the runs below: prefix [ik:], and a sanitizer that
    leaves these keys as they are. *)

Local Abbreviation ik_get_key := (get_key "ik:" (fun k => k)).
Local Abbreviation ik_get_state := (get_state "ik:" (fun k => k)).
Local Abbreviation ik_generate_now := (generate_now "ik:" (fun k => k)).
Local Abbreviation ik_generate := (Async_generate "ik:" (fun k => k)).

Example ik_key_thumb : ik_get_key thumb = "ik:thumb/1.jpg-state".
Proof. reflexivity. Qed.

Example thumb_state_unknown :
  fst (ik_get_state async thumb false (fresh_world true)) = Return None.
Proof. reflexivity. Qed.

Example thumb_state_probed :
  fst (ik_get_state simple thumb true (fresh_world true))
  = Return (Some CacheFileState.DOES_NOT_EXIST).
Proof. vm_compute. reflexivity. Qed.

Example thumb_rendered :
  let w := snd (ik_generate_now simple thumb false (fresh_world true)) in
  value <$> cache w !! "ik:thumb/1.jpg-state" = Some CacheFileState.EXISTS
  /\ bool_decide ("thumb/1.jpg" ∈ storage w) = true
  /\ trace w =
     [EvCacheGet "ik:thumb/1.jpg-state";
      EvProbe "thumb/1.jpg";
      EvStorageExists "thumb/1.jpg";
      EvCacheSet "ik:thumb/1.jpg-state" CacheFileState.DOES_NOT_EXIST (Some 5);
      EvCacheSet "ik:thumb/1.jpg-state" CacheFileState.GENERATING None;
      EvGenerate "thumb/1.jpg";
      EvCacheSet "ik:thumb/1.jpg-state" CacheFileState.EXISTS None].
Proof. vm_compute. repeat split. Qed.

(** C2, the claim as stated fails: on a file already recorded as [EXISTS],
    two unforced calls in sequence both return and [file._generate()] runs
    zero times, not once. *)
Lemma generate_now_twice_counterexample :
  fst ((ik_generate_now simple thumb false ;;
        ik_generate_now simple thumb false) rendered_world) = Return tt
  /\ renders "thumb/1.jpg"
       (trace (snd ((ik_generate_now simple thumb false ;;
                     ik_generate_now simple thumb false) rendered_world)))
     = 0%nat
  /\ trace (snd ((ik_generate_now simple thumb false ;;
                  ik_generate_now simple thumb false) rendered_world))
     = [EvCacheGet "ik:thumb/1.jpg-state"; EvCacheGet "ik:thumb/1.jpg-state"].
Proof. vm_compute. repeat split. Qed.

(** C2, witness: a file not yet rendered, on an empty cache. *)
Lemma generate_now_twice_witness :
  ik_generate_now simple thumb false (fresh_world true) =
    (Return tt, snd (ik_generate_now simple thumb false (fresh_world true)))
  /\ renders "thumb/1.jpg"
       (trace (snd (ik_generate_now simple thumb false
                      (snd (ik_generate_now simple thumb false
                              (fresh_world true))))))
     = 1%nat.
Proof.
  assert (ik_generate_now simple thumb false (fresh_world true) =
          (Return tt, snd (ik_generate_now simple thumb false (fresh_world true))))
    as H by (vm_compute; reflexivity).
  split; [ exact H | ].
  destruct (generate_now_twice "ik:" (fun k => k) simple thumb
              (fresh_world true) _ H) as (_ & _ & state & Hs & Hno & _).
  assert (blocks state = false) as Hb.
  { vm_compute in Hs. injection Hs as <-. vm_compute. reflexivity. }
  destruct (Hno Hb) as [Hr _]. exact Hr.
Defined.

(** C3, witness: the forced generation of a file whose render raises. *)
Lemma generate_now_render_raises_witness :
  fst (ik_generate_now simple broken true (fresh_world true))
  = Raise (RenderError "cannot identify image file")
  /\ cache (snd (ik_generate_now simple broken true (fresh_world true)))
       !! ik_get_key broken
     = Some {| value := CacheFileState.GENERATING; timeout := None |}
  /\ renders "thumb/2.jpg"
       (trace (snd (ik_generate_now simple broken true (fresh_world true))))
     = 1%nat
  /\ last (trace (snd (ik_generate_now simple broken true (fresh_world true))))
     = Some (EvGenerate "thumb/2.jpg").
Proof.
  apply (generate_now_render_raises "ik:" (fun k => k) simple broken true
           (fresh_world true) (RenderError "cannot identify image file")).
  - left. reflexivity.
  - reflexivity.
Defined.

(** The same failure met by an unforced call, after a probe that found
    nothing. *)
Example generate_now_unforced_failure :
  let r := ik_generate_now simple broken false (fresh_world true) in
  fst r = Raise (RenderError "cannot identify image file")
  /\ value <$> cache (snd r) !! "ik:thumb/2.jpg-state"
     = Some CacheFileState.GENERATING.
Proof. vm_compute. split; reflexivity. Qed.

(** C5, witness: a hit, a probed miss and an unprobed miss. *)
Lemma get_state_cases_witness :
  ik_get_state simple thumb false rendered_world =
    (Return (Some CacheFileState.EXISTS),
     log (EvCacheGet (ik_get_key thumb)) rendered_world)
  /\ fst (ik_get_state simple thumb true (fresh_world true)) =
       Return (Some CacheFileState.DOES_NOT_EXIST)
  /\ ik_get_state simple thumb false (fresh_world true) =
       (Return None, log (EvCacheGet (ik_get_key thumb)) (fresh_world true)).
Proof.
  destruct (get_state_cases "ik:" (fun k => k) simple thumb false
              rendered_world) as (Hhit & _ & _).
  destruct (get_state_cases "ik:" (fun k => k) simple thumb false
              (fresh_world true)) as (_ & Hmiss & _).
  destruct (Hmiss eq_refl) as (_ & Hprobe & Hunknown).
  split; [ exact (Hhit _ eq_refl) | ].
  split; [ | exact Hunknown ].
  destruct Hprobe as (Hr & _ & _); [ discriminate | ]. exact Hr.
Defined.

(** C6, witness: one task for an unknown file, none for a rendered one. *)
Lemma Async_generate_enqueues_witness :
  queue (snd (ik_generate async thumb true (fresh_world true))) =
    [{| t_backend := async; t_file := thumb; t_force := true |}]
  /\ queue (snd (ik_generate async thumb true rendered_world)) = []
  /\ trace (snd (ik_generate async thumb true (fresh_world true))) =
       [EvCacheGet "ik:thumb/1.jpg-state"].
Proof.
  destruct (Async_generate_enqueues "ik:" (fun k => k) async thumb true
              (fresh_world true) eq_refl)
    as (_ & _ & Ht & _ & _ & Hq & _).
  destruct (Async_generate_enqueues "ik:" (fun k => k) async thumb true
              rendered_world eq_refl)
    as (_ & _ & _ & _ & _ & _ & Hnone & _).
  split; [ exact Hq | ]. split; [ exact (Hnone eq_refl) | exact Ht ].
Defined.

(** C7, witness: constructing [Async] in a world without celery. *)
Lemma Async_init_fails_fast_witness :
  Async_new (fresh_world false) =
    (Raise (ImproperlyConfigured
              "You must install celery to use imagekit.cachefiles.backend.Async."),
     fresh_world false).
Proof.
  destruct (Async_init_fails_fast async (fresh_world false) eq_refl)
    as (_ & Hn & _).
  exact Hn.
Defined.

(** C9, witness: the snapshot of an instance that holds a handle. *)
Lemma getstate_omits_cache_witness :
  exists state h',
    __getstate__ 1%positive instance_heap = Some (state, h')
    /\ h' !! state = Some {[ "label" := PyStr "thumbs" ]}
    /\ h' !! 1%positive =
         Some {[ "_cache" := PyObj 7 true; "label" := PyStr "thumbs" ]}.
Proof.
  destruct (getstate_omits_cache 1%positive instance_heap
              {[ "_cache" := PyObj 7 true; "label" := PyStr "thumbs" ]}
              eq_refl)
    as (state & h' & Hg & _ & _ & Hs & _ & _ & Hself & _).
  exists state, h'. split; [ exact Hg | ]. split; [ | exact Hself ].
  rewrite Hs. f_equal.
Defined.

(** C10, witness: reads on a cache holding [EXISTS] and on an empty one. *)
Lemma get_state_tri_state_witness :
  (exists s w', ik_get_state simple thumb true rendered_world =
                  (Return (Some s), w')
                /\ is_state s = true)
  /\ cache_wf (cache (snd (ik_generate_now simple thumb true rendered_world))).
Proof.
  assert (cache_wf (cache rendered_world)) as Hw.
  { unfold cache_wf.
    apply (bool_decide_unpack
             (map_Forall (fun _ e => is_state (value e) = true)
                         (cache rendered_world))).
    vm_compute. exact I. }
  destruct (get_state_tri_state "ik:" (fun k => k) simple thumb
              rendered_world Hw) as (_ & Hret & _ & Hgen & _).
  split; [ apply Hret; discriminate | apply Hgen ].
Defined.

(** [exists] on a rendered file, on an unknown one, and the probe of a file
    that has a staged [_file] but is not in the storage. *)
Example exists_rendered :
  fst (exists_ "ik:" (fun k => k) simple thumb rendered_world) = Return true.
Proof. vm_compute. reflexivity. Qed.

Example exists_unknown :
  fst (exists_ "ik:" (fun k => k) simple thumb (fresh_world true))
  = Return false.
Proof. vm_compute. reflexivity. Qed.

Example probe_staged :
  Simple_exists
    {| name := "thumb/3.jpg"; _file := Some (PyObj 9 true);
       _generate := fun s => (Return tt, s) |}
    (fresh_world true)
  = (Return true, log (EvProbe "thumb/3.jpg") (fresh_world true)).
Proof. reflexivity. Qed.

(** * Concrete runs of the further properties *)

Local Abbreviation ik_exists := (exists_ "ik:" (fun k => k)).
Local Abbreviation ik_dispatch := (generate "ik:" (fun k => k)).
Local Abbreviation ik_run_task := (run_task "ik:" (fun k => k)).
Local Abbreviation ik_cache := (cache_property "default" the_cache).

(** X1, witness: the first and second access on an instance with no handle. *)
Lemma cache_property_memoizes_witness :
  exists c h1,
    ik_cache 1%positive plain_heap = Some (c, h1)
    /\ truthy c = true
    /\ ik_cache 1%positive h1 = Some (c, h1).
Proof.
  destruct (cache_property_memoizes "default" the_cache 1%positive plain_heap
              {[ "label" := PyStr "thumbs" ]} eq_refl eq_refl)
    as (c & h1 & attrs1 & H1 & Ht & H2 & _).
  exists c, h1. split; [ exact H1 | ]. split; [ exact Ht | exact H2 ].
Defined.

(** X2, witness: the snapshot of an instance that holds a handle. *)
Lemma getstate_then_cache_reconstitutes_witness :
  exists state h1 h2,
    __getstate__ 1%positive instance_heap = Some (state, h1)
    /\ ik_cache state h1 = Some (PyObj 7 true, h2)
    /\ h2 !! 1%positive =
         Some {[ "_cache" := PyObj 7 true; "label" := PyStr "thumbs" ]}.
Proof.
  destruct (getstate_then_cache_reconstitutes "default" the_cache 1%positive
              instance_heap
              {[ "_cache" := PyObj 7 true; "label" := PyStr "thumbs" ]}
              eq_refl)
    as (state & h1 & h2 & attrs2 & Hg & Hc & _ & _ & _ & Hself).
  exists state, h1, h2. split; [ exact Hg | ]. split; [ exact Hc | exact Hself ].
Defined.

(** X3, witness: the snapshot of an instance that has no handle. *)
Lemma getstate_without_cache_is_copy_witness :
  exists state h1,
    __getstate__ 1%positive plain_heap = Some (state, h1)
    /\ h1 !! state = Some {[ "label" := PyStr "thumbs" ]}.
Proof.
  destruct (getstate_without_cache_is_copy 1%positive plain_heap
              {[ "label" := PyStr "thumbs" ]} eq_refl)
    as (state & h1 & _ & _ & Hg & Hcopy & _).
  exists state, h1. split; [ exact Hg | ]. apply Hcopy. reflexivity.
Defined.

(** X4, witness: an unforced generation of an unknown file. *)
Lemma generate_now_returns_state_witness :
  ik_exists simple thumb
    (snd (ik_generate_now simple thumb false (fresh_world true)))
  = (Return true,
     log (EvCacheGet "ik:thumb/1.jpg-state")
         (snd (ik_generate_now simple thumb false (fresh_world true)))).
Proof.
  assert (ik_generate_now simple thumb false (fresh_world true) =
          (Return tt, snd (ik_generate_now simple thumb false (fresh_world true))))
    as H by (vm_compute; reflexivity).
  destruct (generate_now_returns_state "ik:" (fun k => k) simple thumb false
              (fresh_world true) _ H)
    as [[_ Hex] | (_ & Hg & _)].
  - exact Hex.
  - vm_compute in Hg. discriminate Hg.
Defined.


(** X6, witness: dispatching an unknown file and running its task. *)
Lemma Async_task_renders_once_witness :
  queue (snd (ik_dispatch async thumb false (fresh_world true))) =
    [{| t_backend := async; t_file := thumb; t_force := false |}]
  /\ renders "thumb/1.jpg"
       (trace (snd (ik_run_task
                      {| t_backend := async; t_file := thumb; t_force := false |}
                      (snd (ik_dispatch async thumb false (fresh_world true))))))
     = 1%nat.
Proof.
  destruct (Async_task_renders_once "ik:" (fun k => k) async thumb
              (fresh_world true) eq_refl eq_refl eq_refl eq_refl eq_refl)
    as (Hq & _ & _ & Hr & _).
  split; [ exact Hq | exact Hr ].
Defined.

(** X7, witness: generating another file leaves the record of [thumb]. *)
Lemma other_keys_untouched_witness :
  cache (snd (ik_generate_now simple broken true rendered_world))
    !! "ik:thumb/1.jpg-state"
  = Some {| value := CacheFileState.EXISTS; timeout := None |}.
Proof.
  assert ("ik:thumb/1.jpg-state" <> ik_get_key broken) as Hk
    by (vm_compute; discriminate).
  destruct (other_keys_untouched "ik:" (fun k => k) simple broken
              rendered_world "ik:thumb/1.jpg-state" Hk)
    as (_ & _ & Hgen & _).
  rewrite Hgen. reflexivity.
Defined.

(** X10, witness: after the failed render of [broken]. *)
Lemma failed_render_blocks_until_forced_witness :
  ik_exists simple broken
    (snd (ik_generate_now simple broken true (fresh_world true)))
  = (Return false,
     log (EvCacheGet (ik_get_key broken))
         (snd (ik_generate_now simple broken true (fresh_world true)))).
Proof.
  destruct (failed_render_blocks_until_forced "ik:" (fun k => k) simple broken
              true (fresh_world true)
              (RenderError "cannot identify image file")
              (or_introl eq_refl) eq_refl)
    as (_ & Hex & _).
  exact Hex.
Defined.

(** X11, witness: a forced dispatch of a file recorded as [EXISTS]. *)
Lemma Async_dispatch_ignores_force_witness :
  ik_generate async thumb true rendered_world =
    (Return tt, log (EvCacheGet (ik_get_key thumb)) rendered_world)
  /\ renders "thumb/1.jpg"
       (trace (snd (Simple_generate "ik:" (fun k => k) simple thumb true
                      rendered_world)))
     = 1%nat.
Proof.
  destruct (Async_dispatch_ignores_force "ik:" (fun k => k) async thumb
              rendered_world eq_refl) as [Ha _].
  destruct (Async_dispatch_ignores_force "ik:" (fun k => k) simple thumb
              rendered_world eq_refl) as [_ Hs].
  split; [ exact (Ha true) | exact Hs ].
Defined.

(** X12, witness: a staged file on an empty cache and an empty storage. *)
Lemma staged_file_is_not_rendered_witness :
  trace (snd (ik_generate_now simple staged_thumb false (fresh_world true))) =
    [EvCacheGet "ik:thumb/3.jpg-state"; EvProbe "thumb/3.jpg";
     EvCacheSet "ik:thumb/3.jpg-state" CacheFileState.EXISTS None]
  /\ storage (snd (ik_generate_now simple staged_thumb false (fresh_world true)))
     = ∅.
Proof.
  destruct (staged_file_is_not_rendered "ik:" (fun k => k) simple staged_thumb
              (fresh_world true)) as (_ & Ht & _ & Hs).
  - discriminate.
  - reflexivity.
  - reflexivity.
  - split; [ exact Ht | exact Hs ].
Defined.

(** X13, witness: the lifecycle of [thumb] from an empty world. *)
Lemma unknown_file_lifecycle_witness :
  trace (snd (ik_generate_now simple thumb false (fresh_world true))) =
    [EvCacheGet "ik:thumb/1.jpg-state";
     EvProbe "thumb/1.jpg";
     EvStorageExists "thumb/1.jpg";
     EvCacheSet "ik:thumb/1.jpg-state" CacheFileState.DOES_NOT_EXIST (Some 5);
     EvCacheSet "ik:thumb/1.jpg-state" CacheFileState.GENERATING None;
     EvGenerate "thumb/1.jpg";
     EvCacheSet "ik:thumb/1.jpg-state" CacheFileState.EXISTS None].
Proof.
  destruct (unknown_file_lifecycle "ik:" (fun k => k) simple thumb
              (fresh_world true)) as (_ & Ht & _).
  - discriminate.
  - reflexivity.
  - reflexivity.
  - reflexivity.
  - exact Ht.
Defined.

(** X14, witness: [thumb] generated by one backend, asked of another
    through another file object of the same name. *)
Lemma same_name_shares_state_witness :
  ik_exists async thumb_again
    (snd (ik_generate_now simple thumb true (fresh_world true)))
  = (Return true,
     log (EvCacheGet (ik_get_key thumb_again))
         (snd (ik_generate_now simple thumb true (fresh_world true)))).
Proof.
  assert (ik_generate_now simple thumb true (fresh_world true) =
          (Return tt, snd (ik_generate_now simple thumb true (fresh_world true))))
    as H by (vm_compute; reflexivity).
  destruct (same_name_shares_state "ik:" (fun k => k) simple async thumb
              thumb_again (fresh_world true) _ eq_refl H) as (_ & Hex & _).
  exact Hex.
Defined.


(** X16, witness: an instance of the base class on an empty cache. *)
Lemma base_class_cannot_probe_witness :
  ik_get_state (new_backend CachedFileBackend) thumb true (fresh_world true) =
    (Raise (AttributeError "_exists"),
     log (EvCacheGet (ik_get_key thumb)) (fresh_world true)).
Proof.
  destruct (base_class_cannot_probe "ik:" (fun k => k)
              (new_backend CachedFileBackend) thumb (fresh_world true)
              eq_refl eq_refl) as (_ & Hg & _).
  exact Hg.
Defined.
